(** * opengapps-mirror-bot: name parsing and mirror creation

    A shallow embedding of [gapps/package.go] and
    [internal/pkg/storage/package.go], and the properties of the
    download-and-mirror pipeline proved about it.

    Go strings are byte sequences and are modelled by [string] (a list of
    8-bit [ascii]); Go [int] by [Z]; the configuration object
    ([*viper.Viper]) by a finite map from keys to strings; a Go [error] by
    [option error] ([None] is [nil]); a function returning [(T, error)] from
    a library by [result T]. *)

From stdpp Require Import base strings gmap list pretty.
From Stdlib Require Import Ascii ZArith Lia.

Open Scope string_scope.
Open Scope list_scope.
Open Scope stdpp_scope.

(** ** Errors ([github.com/pkg/errors]) *)

Inductive error : Type :=
| Errorf (msg : string)                 (* errors.Errorf, message already formatted *)
| Wrap (cause : error) (msg : string)   (* errors.Wrap(cause, msg) *)
| External (msg : string).              (* an error made by a library *)

(** The [Error()] method: a wrapped error prints as [msg: cause]. *)
Fixpoint ErrorString (e : error) : string :=
  match e with
  | Errorf m => m
  | Wrap c m => m +:+ ": " +:+ ErrorString c
  | External m => m
  end.

Inductive result (A : Type) : Type :=
| Ok (a : A)
| Err (e : error).
Arguments Ok {A} a.
Arguments Err {A} e.

(** The call failed: it returned a non-nil error. *)
Definition failed {A} (r : result A) : Prop := exists e, r = Err e.

(** ** The [strings] package *)

Fixpoint string_drop (n : nat) (s : string) : string :=
  match n, s with
  | O, _ => s
  | S n', String _ s' => string_drop n' s'
  | S _, EmptyString => EmptyString
  end.

Fixpoint string_take (n : nat) (s : string) : string :=
  match n, s with
  | S n', String c s' => String c (string_take n' s')
  | _, _ => EmptyString
  end.

Definition HasPrefix (s prefix : string) : bool := String.prefix prefix s.

(** [strings.TrimPrefix]: [s] without the leading [prefix], or [s] itself. *)
Definition TrimPrefix (s prefix : string) : string :=
  if HasPrefix s prefix then string_drop (String.length prefix) s else s.

(** [sep] occurs in [s] at byte offset [m]. *)
Definition occursAt (sep s : string) (m : nat) : Prop :=
  HasPrefix (string_drop m s) sep = true.

(** The byte [c] occurs in [s]. *)
Fixpoint occurs (c : ascii) (s : string) : bool :=
  match s with
  | EmptyString => false
  | String x s' => if ascii_dec c x then true else occurs c s'
  end.

(** [piece] is [s] up to, and without, the first occurrence of [sep]; all
    of [s] when [sep] does not occur. *)
Definition cutBefore (sep s piece : string) : Prop :=
  (exists m, occursAt sep s m
             /\ (forall j, (j < m)%nat -> ~ occursAt sep s j)
             /\ piece = string_take m s)
  \/ ((forall j, ~ occursAt sep s j) /\ piece = s).

(** [strings.Index]: the first position where [substr] occurs ([-1] in Go
    is [None] here). *)
Fixpoint Index (s substr : string) : option nat :=
  if HasPrefix s substr then Some O
  else match s with
       | EmptyString => None
       | String _ s' => S <$> Index s' substr
       end.

Definition consHead (c : ascii) (l : list string) : list string :=
  match l with
  | h :: t => String c h :: t
  | [] => [String c EmptyString]
  end.

(** One left-to-right pass of [strings.Split]: [skip] counts the bytes of a
    separator that was just matched and are still to be passed over. *)
Fixpoint splitFrom (sep : string) (skip : nat) (s : string) : list string :=
  match s with
  | EmptyString => [EmptyString]
  | String c s' =>
      match skip with
      | S k => splitFrom sep k s'
      | O =>
          if HasPrefix s sep
          then EmptyString :: splitFrom sep (String.length sep - 1) s'
          else consHead c (splitFrom sep O s')
      end
  end.

(** [strings.Split(s, sep)] for a non-empty [sep]: cut at every occurrence
    of [sep], leftmost first, occurrences not overlapping.  The source only
    passes the constants ".", "-" and two spaces; Go's special case for the
    empty separator (one piece per UTF-8 sequence) is not modelled. *)
Definition Split (s sep : string) : list string := splitFrom sep O s.

(** [s[0]] of a slice made by [Split], which is never empty. *)
Definition first (l : list string) : string := default EmptyString (head l).

(** ** Files, HTTP messages and the trace of effects *)

Inductive File : Type := FileOf (name : string).

Record Request : Type := mkRequest {
  Method : string;
  URL : string;
  Header : gmap string (list string);
  ReqBody : File
}.

(** [Body] is what [ioutil.ReadAll(resp.Body)] gives. *)
Record Response : Type := mkResponse {
  StatusCode : Z;
  Status : string;
  Body : result string
}.

Definition MethodPut : string := "PUT".
Definition StatusOK : Z := 200%Z.

(** The file mode written [0755] in the source (an octal literal). *)
Definition mode0755 : Z := (7 * 64 + 5 * 8 + 5)%Z.

(** [http.Header.Set]: the key gets exactly the one value.  (The two keys
    the source sets are already in canonical form.) *)
Definition HeaderSet (req : Request) (key value : string) : Request :=
  mkRequest (Method req) (URL req) (<[key := [value]]> (Header req)) (ReqBody req).

(** What a call does to the world outside, and the writes through the
    [*Package] pointer, in the order they happen.  Log lines are left out. *)
Inductive Event : Type :=
| EvAddMultiple (url md5 : string) (retries size : Z)
| EvAddSingle (url : string)
| EvDownload (url : string) (retries size : Z)
| EvCreateFile (name body : string) (temp : bool)
| EvMkdirAll (path : string) (perm : Z)
| EvRename (oldpath newpath : string)
| EvChmod (path : string) (perm : Z)
| EvOpen (path : string)
| EvReadFile (f : File)
| EvRemove (path : string)
| EvClose (f : File)
| EvDo (req : Request)
| EvReadBody
| EvCloseBody
| EvSetLocalURL (v : string)
| EvSetRemoteURL (v : string)
| EvSetMirrorURL (v : string).

(** The writes through the [*Package] pointer, among the events. *)
Definition isSetLocalURL (ev : Event) : bool :=
  match ev with EvSetLocalURL _ => true | _ => false end.

Definition isSetRemoteURL (ev : Event) : bool :=
  match ev with EvSetRemoteURL _ => true | _ => false end.

Definition isAddMultiple (ev : Event) : bool :=
  match ev with EvAddMultiple _ _ _ _ => true | _ => false end.

(** How often an event of the kind [f] happens in a trace. *)
Definition times (f : Event -> bool) (t : list Event) : nat := length (List.filter f t).

(** The collaborators outside the two source files: the download queue
    ([pkg/net]), [utils], and the Go libraries.  Each is the answer it gives
    to a call; within one run of a function of the source every one of them
    is called at most once, so an answer that is a function of the
    arguments loses nothing. *)
Record World : Type := mkWorld {
  dq_AddMultiple : string -> string -> Z -> Z -> result string;
  dq_AddSingle : string -> result string;
  utils_Download : string -> Z -> Z -> result string;
  utils_CreateFile : string -> string -> bool -> result string;
  os_MkdirAll : string -> Z -> option error;
  os_Rename : string -> string -> option error;
  os_Chmod : string -> Z -> option error;
  os_Open : string -> result File;
  ioutil_ReadAll : File -> result string;
  filepath_Clean : string -> string;
  url_Parse : string -> option error;
  http_Do : Request -> result Response;
  fmt_Sprintf : string -> string -> string;
  time_Parse : string -> string -> option error
}.

(** [http.NewRequest]: fails when the URL does not parse; the new request
    has no header yet. *)
Definition NewRequest (W : World) (method url : string) (body : File) : result Request :=
  match url_Parse W url with
  | Some e => Err e
  | None => Ok (mkRequest method url ∅ body)
  end.

(** [viper.GetString]: the empty string for a key that is not set. *)
Definition GetString (cfg : gmap string string) (key : string) : string :=
  default EmptyString (cfg !! key).

Definition nonEmpty (s : string) : bool :=
  match s with
  | EmptyString => false
  | String _ _ => true
  end.

(** ** A state and error monad for function bodies

    The state is the package behind the receiver pointer, the trace so far,
    and the stack of deferred calls (most recent first). *)

Record St (P : Type) : Type := mkSt {
  pkg : P;
  trace : list Event;
  defers : list Event
}.
Arguments mkSt {P} pkg trace defers.
Arguments pkg {P} s.
Arguments trace {P} s.
Arguments defers {P} s.

Definition M (P A : Type) : Type := St P -> St P * result A.

#[global] Instance M_ret {P} : MRet (M P) := fun A a s => (s, Ok a).
#[global] Instance M_bind {P} : MBind (M P) := fun A B f m s =>
  match m s with
  | (s', Ok a) => f a s'
  | (s', Err e) => (s', Err e)
  end.

Definition fail {P A} (e : error) : M P A := fun s => (s, Err e).

Definition emit {P} (ev : Event) : M P unit := fun s =>
  (mkSt (pkg s) (trace s ++ [ev]) (defers s), Ok tt).

(** [defer f(args)]: the call is pushed, with its arguments as they are now. *)
Definition defer {P} (ev : Event) : M P unit := fun s =>
  (mkSt (pkg s) (trace s) (ev :: defers s), Ok tt).

Definition getPkg {P} : M P P := fun s => (s, Ok (pkg s)).

Definition setPkg {P} (p : P) : M P unit := fun s =>
  (mkSt p (trace s) (defers s), Ok tt).

(** A call to a collaborator: it is logged, then it answers. *)
Definition call {P A} (ev : Event) (r : result A) : M P A := fun s =>
  (mkSt (pkg s) (trace s ++ [ev]) (defers s), r).

(** A library function that answers without touching the world. *)
Definition pureCall {P A} (r : result A) : M P A := fun s => (s, r).

Definition callErr {P} (ev : Event) (r : option error) : M P unit :=
  call ev (match r with Some e => Err e | None => Ok tt end).

(** [if err != nil { return errors.Wrap(err, msg) }] *)
Definition wrapErr {P A} (msg : string) (m : M P A) : M P A := fun s =>
  match m s with
  | (s', Err e) => (s', Err (Wrap e msg))
  | r => r
  end.

(** Run a body on the package [p]: the deferred calls run when it returns,
    last pushed first. *)
Definition runFunc {P} (m : M P unit) (p : P) : P * option error * list Event :=
  let '(s, r) := m (mkSt p [] []) in
  (pkg s, match r with Ok _ => None | Err e => Some e end, trace s ++ defers s).

(** The same for a function that returns [(T, error)] and has no receiver. *)
Definition runValue {A} (m : M unit A) : result A * list Event :=
  let '(s, r) := m (mkSt tt [] []) in (r, trace s ++ defers s).

(** Slice indexing [l[i]].  Go panics out of range; every use below is
    behind the length check that puts [i] in range. *)
Definition idx (l : list string) (i : nat) : string := default EmptyString (l !! i).

(** ** The enumerations

    [Platform], [Android] and [Variant] are numeric types of package
    [gapps] whose declarations and generated lookups are not in the two
    source files.  What the source uses of each: the literal [0], the method
    [String()], and the lookup [<Type>String(s)] that returns the value or
    an error. *)
Class Enumer (T : Type) : Type := {
  zero : T;
  toString : T -> string;
  fromString : string -> result T
}.

(** The fields of [github.ReleaseAsset] read through its getters. *)
Record ReleaseAsset : Type := mkAsset {
  GetName : string;
  GetBrowserDownloadURL : string;
  GetSize : Z
}.

(** ** Package [gapps] ([gapps/package.go]) *)
Module gapps.

Definition TimeFormat : string := "20060102".
Definition parsingErrText : string := "parsing error".
Definition gappsPrefix : string := "open_gapps".
Definition gappsSeparator : string := "-".
Definition uploadURL : string := "https://transfer.sh/%s".

Section Gapps.
Context {Platform Android Variant : Type}.
Context `{EP : Enumer Platform} `{EA : Enumer Android} `{EV : Enumer Variant}.
Variable W : World.

Definition PlatformString : string -> result Platform := fromString.
Definition AndroidString : string -> result Android := fromString.
Definition VariantString : string -> result Variant := fromString.

Record Package : Type := mkPackage {
  Name : string;
  Date : string;
  OriginURL : string;
  MirrorURL : string;
  MD5 : string;
  Size : Z;
  Platform_ : Platform;
  Android_ : Android;
  Variant_ : Variant
}.

Definition withMirrorURL (v : string) (p : Package) : Package :=
  mkPackage (Name p) (Date p) (OriginURL p) v (MD5 p) (Size p)
            (Platform_ p) (Android_ p) (Variant_ p).

(** [p.MirrorURL = v] *)
Definition setMirrorURL (v : string) : M Package unit :=
  p ← getPkg;
  emit (EvSetMirrorURL v);;
  setPkg (withMirrorURL v p).

(** The body of [CreateMirror] after the guard on [MirrorURL]. *)
Definition CreateMirror_body : M Package unit :=
  p ← getPkg;
  body ← wrapErr "unable to read file body"
           (call (EvDownload (OriginURL p) 20 (Size p))
                 (utils_Download W (OriginURL p) 20 (Size p)));
  tmpFileName ← wrapErr "unable to create temp file"
           (call (EvCreateFile "" body true) (utils_CreateFile W "" body true));
  defer (EvRemove tmpFileName);;
  tmpFile ← wrapErr "unable to open temp file"
           (call (EvOpen tmpFileName) (os_Open W tmpFileName));
  defer (EvClose tmpFile);;
  req ← wrapErr "unable to create upload request"
           (pureCall (NewRequest W MethodPut (fmt_Sprintf W uploadURL (Name p)) tmpFile));
  let req := HeaderSet (HeaderSet req "Content-Type" "application/zip") "Max-Days" "7" in
  resp ← wrapErr "unable to make upload request" (call (EvDo req) (http_Do W req));
  defer EvCloseBody;;
  if negb (StatusCode resp =? StatusOK)%Z
  then fail (Errorf ("unable to make upload request: " +:+ Status resp))
  else
    result ← wrapErr "unable to read mirror response body" (call EvReadBody (Body resp));
    setMirrorURL result.

(** [func (p *Package) CreateMirror() error]: the package after the call,
    the error, and the trace. *)
Definition CreateMirror (p : Package) : Package * option error * list Event :=
  if nonEmpty (MirrorURL p) then (p, None, [])
  else runFunc CreateMirror_body p.

(** [ParsePackageParts] helps to parse package info args into proper parts. *)
Definition ParsePackageParts (args : list string)
  : Platform * Android * Variant * option error :=
  if negb (length args =? 3)%nat
  then (zero, zero, zero,
        Some (Errorf ("bad number of arguments: want 4, got " +:+ pretty (length args))))
  else
    match PlatformString (idx args 0) with
    | Err err => (zero, zero, zero, Some (Wrap err parsingErrText))
    | Ok platform =>
        match AndroidString (idx args 1) with
        | Err err => (zero, zero, zero, Some (Wrap err parsingErrText))
        | Ok android =>
            match VariantString (idx args 2) with
            | Err err => (zero, zero, zero, Some (Wrap err parsingErrText))
            | Ok variant => (platform, android, variant, None)
            end
        end
    end.

(** [getMD5]: the checksum file is fetched with one attempt, and cut at
    the first double space. *)
Definition getMD5 (url : string) : string * option error :=
  match utils_Download W url 1 0 with
  | Err err => ("", Some err)
  | Ok body => (first (Split body "  "), None)
  end.

(** Package name format is as follows:
    open_gapps-Platform-Android-Variant-Date.zip *)
Definition parseAsset (asset : ReleaseAsset) (md5Sum : string)
  : option Package * option error :=
  let name := GetName asset in
  let parts := Split (TrimPrefix name (gappsPrefix +:+ gappsSeparator)) "." in
  if negb (length parts =? 3)%nat
  then (None, Some (Errorf ("incorrect package name: " +:+ name)))
  else
    let path := idx parts 0 +:+ idx parts 1 in
    let ext := idx parts 2 in
    if negb (String.eqb ext "zip")
    then (None, Some (Errorf ("incorrect package extension: " +:+ ext)))
    else
      let parts := Split path gappsSeparator in
      if negb (length parts =? 4)%nat
      then (None, Some (Errorf ("incorrect package name: " +:+ name)))
      else
        match ParsePackageParts (take 3 parts) with
        | (_, _, _, Some err) => (None, Some err)
        | (platform, android, variant, None) =>
            match time_Parse W TimeFormat (idx parts 3) with
            | Some err => (None, Some (Wrap err "unable to parse time"))
            | None =>
                (Some (mkPackage name (idx parts 3) (GetBrowserDownloadURL asset) ""
                                 md5Sum (GetSize asset) platform android variant),
                 None)
            end
        end.

Definition formPackage (zipAsset md5Asset : ReleaseAsset)
  : option Package * option error :=
  match getMD5 (GetBrowserDownloadURL md5Asset) with
  | (_, Some err) => (None, Some (Wrap err "unable to download md5"))
  | (md5sum, None) =>
      match parseAsset zipAsset md5sum with
      | (_, Some err) => (None, Some (Wrap err "unable to create package"))
      | (p, None) => (p, None)
      end
  end.

End Gapps.
Arguments Package : clear implicits.
End gapps.

(** ** Package [storage] ([internal/pkg/storage/package.go]) *)
Module storage.

Definition gappsSeparator : string := "-".

Section Storage.
Context {Platform Android Variant : Type}.
Context `{EP : Enumer Platform} `{EA : Enumer Android} `{EV : Enumer Variant}.
Variable W : World.

Record Package : Type := mkPackage {
  Name : string;
  Date : string;
  OriginURL : string;
  LocalURL : string;
  RemoteURL : string;
  MD5 : string;
  Size : Z;
  Platform_ : Platform;
  Android_ : Android;
  Variant_ : Variant
}.

Definition withLocalURL (v : string) (p : Package) : Package :=
  mkPackage (Name p) (Date p) (OriginURL p) v (RemoteURL p) (MD5 p) (Size p)
            (Platform_ p) (Android_ p) (Variant_ p).

Definition withRemoteURL (v : string) (p : Package) : Package :=
  mkPackage (Name p) (Date p) (OriginURL p) (LocalURL p) v (MD5 p) (Size p)
            (Platform_ p) (Android_ p) (Variant_ p).

(** [p.LocalURL = v] *)
Definition setLocalURL (v : string) : M Package unit :=
  p ← getPkg;
  emit (EvSetLocalURL v);;
  setPkg (withLocalURL v p).

(** [p.RemoteURL = v] *)
Definition setRemoteURL (v : string) : M Package unit :=
  p ← getPkg;
  emit (EvSetRemoteURL v);;
  setPkg (withRemoteURL v p).

(** [func (p *Package) move(origin, destFolder string) (string, error)] *)
Definition move (origin destFolder : string) : M Package string :=
  p ← getPkg;
  let path := ((destFolder +:+ toString (Platform_ p)) +:+ "/") +:+ Date p in
  wrapErr "unable to create folder"
    (callErr (EvMkdirAll path mode0755) (os_MkdirAll W path mode0755));;
  let path := (path +:+ "/") +:+ Name p in
  wrapErr "unable to move file"
    (callErr (EvRename origin path) (os_Rename W origin path));;
  wrapErr "unable to set file permissions"
    (callErr (EvChmod path mode0755) (os_Chmod W path mode0755));;
  mret path.

(** The guard at the head of [CreateMirror]. *)
Definition mirrored (cfg : gmap string string) (p : Package) : bool :=
  nonEmpty (GetString cfg "gapps.local_url") && nonEmpty (LocalURL p)
  || nonEmpty (GetString cfg "gapps.remote_url") && nonEmpty (RemoteURL p).

(** The guard as the specification words it: no tier is configured, or
    every tier that is configured already has its URL. *)
Definition specMirrored (cfg : gmap string string) (p : Package) : Prop :=
  (GetString cfg "gapps.local_url" = "" /\ GetString cfg "gapps.remote_url" = "")
  \/ ((GetString cfg "gapps.local_url" <> "" -> LocalURL p <> "")
      /\ (GetString cfg "gapps.remote_url" <> "" -> RemoteURL p <> "")).

(** The upload of the file at [filePath], when [gapps.remote_url] is set. *)
Definition upload (remoteURL filePath : string) : M Package unit :=
  tmpFile ← wrapErr "unable to create temp file"
    (call (EvOpen (filepath_Clean W filePath)) (os_Open W (filepath_Clean W filePath)));
  defer (EvClose tmpFile);;
  p ← getPkg;
  req ← wrapErr "unable to create upload request"
    (pureCall (NewRequest W MethodPut (fmt_Sprintf W remoteURL (Name p)) tmpFile));
  let req := HeaderSet (HeaderSet req "Content-Type" "application/zip") "Max-Days" "7" in
  resp ← wrapErr "unable to make upload request" (call (EvDo req) (http_Do W req));
  defer EvCloseBody;;
  if negb (StatusCode resp =? StatusOK)%Z
  then fail (Errorf ("unable to make upload request: " +:+ Status resp))
  else
    result ← wrapErr "unable to read mirror response body" (call EvReadBody (Body resp));
    setRemoteURL result.

(** The body of [CreateMirror] after the guard. *)
Definition CreateMirror_body (cfg : gmap string string) : M Package unit :=
  p ← getPkg;
  filePath ← wrapErr "unable to read file body"
    (call (EvAddMultiple (OriginURL p) (MD5 p) 20 (Size p))
          (dq_AddMultiple W (OriginURL p) (MD5 p) 20 (Size p)));
  let localPath := GetString cfg "gapps.local_path" in
  filePath ←
    (if nonEmpty localPath
     then
       filePath ← wrapErr "unable to move the file to storage" (move filePath localPath);
       let localURL := GetString cfg "gapps.local_url" in
       (if nonEmpty localURL
        then setLocalURL (fmt_Sprintf W localURL (TrimPrefix filePath localPath))
        else mret tt);;
       mret filePath
     else
       defer (EvRemove filePath);;
       mret filePath);
  let remoteURL := GetString cfg "gapps.remote_url" in
  if nonEmpty remoteURL then upload remoteURL filePath else mret tt.

(** [func (p *Package) CreateMirror(dq, cfg) error]: the package after
    the call, the error, and the trace. *)
Definition CreateMirror (cfg : gmap string string) (p : Package)
  : Package * option error * list Event :=
  if mirrored cfg p then (p, None, [])
  else runFunc (CreateMirror_body cfg) p.

Definition getMD5_body (url : string) : M unit string :=
  filePath ← wrapErr "unable to download MD5 file"
    (call (EvAddSingle url) (dq_AddSingle W url));
  file ← wrapErr "unable to open MD5 file"
    (call (EvOpen (filepath_Clean W filePath)) (os_Open W (filepath_Clean W filePath)));
  defer (EvClose file);;
  result ← wrapErr "unable to read MD5 file"
    (call (EvReadFile file) (ioutil_ReadAll W file));
  mret (first (Split result "  ")).

(** [getMD5]: the string, the error, and the trace. *)
Definition getMD5 (url : string) : string * option error * list Event :=
  match runValue (getMD5_body url) with
  | (Ok md5, t) => (md5, None, t)
  | (Err err, t) => ("", Some err, t)
  end.

(** Package name format is as follows:
    open_gapps-Platform-Android-Variant-Date.zip *)
Definition parseAsset (cfg : gmap string string) (asset : ReleaseAsset) (md5Sum : string)
  : option Package * option error :=
  let name := GetName asset in
  let parts :=
    Split (TrimPrefix name (GetString cfg "gapps.prefix" +:+ gappsSeparator)) "." in
  if negb (length parts =? 3)%nat
  then (None, Some (Errorf ("incorrect package name: " +:+ name)))
  else
    let path := idx parts 0 +:+ idx parts 1 in
    let ext := idx parts 2 in
    if negb (String.eqb ext "zip")
    then (None, Some (Errorf ("incorrect package extension: " +:+ ext)))
    else
      let parts := Split path gappsSeparator in
      if negb (length parts =? 4)%nat
      then (None, Some (Errorf ("incorrect package name: " +:+ name)))
      else
        match gapps.ParsePackageParts (take 3 parts) with
        | (_, _, _, Some err) => (None, Some err)
        | (platform, android, variant, None) =>
            match time_Parse W (GetString cfg "gapps.time_format") (idx parts 3) with
            | Some err => (None, Some (Wrap err "unable to parse time"))
            | None =>
                (Some (mkPackage name (idx parts 3) (GetBrowserDownloadURL asset) "" ""
                                 md5Sum (GetSize asset) platform android variant),
                 None)
            end
        end.

Definition formPackage (cfg : gmap string string) (zipAsset md5Asset : ReleaseAsset)
  : option Package * option error :=
  match getMD5 (GetBrowserDownloadURL md5Asset) with
  | (_, Some err, _) => (None, Some (Wrap err "unable to download md5"))
  | (md5sum, None, _) =>
      match parseAsset cfg zipAsset md5sum with
      | (_, Some err) => (None, Some (Wrap err "unable to create package"))
      | (p, None) => (p, None)
      end
  end.

End Storage.
Arguments Package : clear implicits.
End storage.

(** The shapes of the errors [parseAsset] makes for the asset [name] whose
    third segment is [ext]. *)
Inductive parseError (name ext : string) : error -> Prop :=
| BadName : parseError name ext (Errorf ("incorrect package name: " +:+ name))
| BadExtension : parseError name ext (Errorf ("incorrect package extension: " +:+ ext))
| BadToken cause : parseError name ext (Wrap cause "parsing error")
| BadDate cause : parseError name ext (Wrap cause "unable to parse time").

(** ** A sample world and sample enumerations, for running the model *)
Module sample.

(** Modelled from the spec: the declarations of [Platform], [Android] and
    [Variant] and their generated [String] and [<Type>String] functions are
    not among the source files.  The spec has each as a closed enumeration
    with a canonical string and a strict parse-or-fail lookup, and names the
    platform [arm64], the variant [pico] and the Android release 11.0.  The
    first constructor of each type stands for the numeric value [0], which
    has no name. *)
Inductive Platform : Type := Platform0 | PlatformArm | PlatformArm64 | PlatformX86.
Inductive Android : Type := Android0 | Android90 | Android100 | Android110.
Inductive Variant : Type := Variant0 | VariantPico | VariantNano | VariantStock.

Definition lookup {T} (what : string) (table : list (string * T)) (s : string) : result T :=
  match List.find (fun kv => String.eqb (fst kv) s) table with
  | Some kv => Ok (snd kv)
  | None => Err (External (s +:+ " does not belong to " +:+ what +:+ " values"))
  end.

#[global] Instance Platform_enumer : Enumer Platform := {|
  zero := Platform0;
  toString v :=
    match v with
    | Platform0 => "Platform(0)" | PlatformArm => "arm"
    | PlatformArm64 => "arm64" | PlatformX86 => "x86"
    end;
  fromString :=
    lookup "Platform" [("arm", PlatformArm); ("arm64", PlatformArm64); ("x86", PlatformX86)]
|}.

#[global] Instance Android_enumer : Enumer Android := {|
  zero := Android0;
  toString v :=
    match v with
    | Android0 => "Android(0)" | Android90 => "90"
    | Android100 => "100" | Android110 => "110"
    end;
  fromString :=
    lookup "Android" [("90", Android90); ("100", Android100); ("110", Android110)]
|}.

#[global] Instance Variant_enumer : Enumer Variant := {|
  zero := Variant0;
  toString v :=
    match v with
    | Variant0 => "Variant(0)" | VariantPico => "pico"
    | VariantNano => "nano" | VariantStock => "stock"
    end;
  fromString :=
    lookup "Variant" [("pico", VariantPico); ("nano", VariantNano); ("stock", VariantStock)]
|}.

(** The same values under the names a release carries, with the dot. *)
Definition Android_dotted : Enumer Android := {|
  zero := Android0;
  toString v :=
    match v with
    | Android0 => "Android(0)" | Android90 => "9.0"
    | Android100 => "10.0" | Android110 => "11.0"
    end;
  fromString :=
    lookup "Android" [("9.0", Android90); ("10.0", Android100); ("11.0", Android110)]
|}.

(** [fmt.Sprintf] on a format with the single verb [%s] and one string. *)
Definition Sprintf (format arg : string) : string :=
  match Index format "%s" with
  | Some m => string_take m format +:+ arg +:+ string_drop (m + 2) format
  | None => format +:+ "%!(EXTRA string=" +:+ arg +:+ ")"
  end.

Definition digit (c : ascii) : option nat :=
  let n := nat_of_ascii c in
  if (48 <=? n)%nat && (n <=? 57)%nat then Some (n - 48)%nat else None.

Fixpoint number (acc : nat) (s : string) : option nat :=
  match s with
  | EmptyString => Some acc
  | String c s' =>
      match digit c with
      | Some d => number (10 * acc + d) s'
      | None => None
      end
  end.

Definition daysIn (year month : nat) : nat :=
  match month with
  | 2 => if ((year mod 4 =? 0) && negb (year mod 100 =? 0) || (year mod 400 =? 0))%nat
         then 29 else 28
  | 4 | 6 | 9 | 11 => 30
  | _ => 31
  end%nat.

(** [time.Parse] for the one layout [20060102]: four digits of year, two of
    month, two of day, and the day must exist. *)
Definition timeParse (layout value : string) : option error :=
  if negb (String.eqb layout "20060102") then Some (External "layout not in the sample")
  else
    match number 0 (string_take 4 value), number 0 (string_take 2 (string_drop 4 value)),
          number 0 (string_drop 6 value) with
    | Some y, Some m, Some d =>
        if ((String.length value =? 8) && (1 <=? m) && (m <=? 12)
            && (1 <=? d) && (d <=? daysIn y m))%nat
        then None
        else Some (External ("parsing time " +:+ value +:+ ": out of range"))
    | _, _, _ => Some (External ("parsing time " +:+ value +:+ ": not a number"))
    end.

(** A world where every call succeeds; the mirror answers [200 OK] with the
    URL it assigned. *)
Definition world : World := {|
  dq_AddMultiple url md5 retries size := Ok "/tmp/gapps-zip";
  dq_AddSingle url := Ok "/tmp/gapps-md5";
  utils_Download url retries size := Ok "0123456789abcdef  open_gapps.zip";
  utils_CreateFile name body temp := Ok "/tmp/gapps-tmp";
  os_MkdirAll path perm := None;
  os_Rename oldpath newpath := None;
  os_Chmod path perm := None;
  os_Open path := Ok (FileOf path);
  ioutil_ReadAll f := Ok "0123456789abcdef  open_gapps.zip";
  filepath_Clean path := path;
  url_Parse url := None;
  http_Do req := Ok (mkResponse 200 "200 OK" (Ok "https://mirror.example/abc/file.zip"));
  fmt_Sprintf := Sprintf;
  time_Parse := timeParse
|}.

(** The same world with a download queue that always fails. *)
Definition offline : World := {|
  dq_AddMultiple url md5 retries size := Err (External "connection refused");
  dq_AddSingle url := Err (External "connection refused");
  utils_Download url retries size := Err (External "connection refused");
  utils_CreateFile := utils_CreateFile world;
  os_MkdirAll := os_MkdirAll world;
  os_Rename := os_Rename world;
  os_Chmod := os_Chmod world;
  os_Open := os_Open world;
  ioutil_ReadAll := ioutil_ReadAll world;
  filepath_Clean := filepath_Clean world;
  url_Parse := url_Parse world;
  http_Do := http_Do world;
  fmt_Sprintf := Sprintf;
  time_Parse := timeParse
|}.

(** The same world with a mirror that answers with the given status and
    body. *)
Definition answering (code : Z) (status : string) (body : result string) : World := {|
  dq_AddMultiple := dq_AddMultiple world;
  dq_AddSingle := dq_AddSingle world;
  utils_Download := utils_Download world;
  utils_CreateFile := utils_CreateFile world;
  os_MkdirAll := os_MkdirAll world;
  os_Rename := os_Rename world;
  os_Chmod := os_Chmod world;
  os_Open := os_Open world;
  ioutil_ReadAll := ioutil_ReadAll world;
  filepath_Clean := filepath_Clean world;
  url_Parse := url_Parse world;
  http_Do req := Ok (mkResponse code status body);
  fmt_Sprintf := Sprintf;
  time_Parse := timeParse
|}.

Definition zipName : string := "open_gapps-arm64-11.0-pico-20230101.zip".

Definition zipAsset : ReleaseAsset :=
  mkAsset zipName "https://releases.example/open_gapps-arm64-11.0-pico-20230101.zip" 104857600.

(** The package of the spec's placement example, not yet mirrored. *)
Definition package : storage.Package Platform Android Variant :=
  storage.mkPackage zipName "20230101" (GetBrowserDownloadURL zipAsset) "" ""
    "0123456789abcdef" (GetSize zipAsset) PlatformArm64 Android110 VariantPico.

Definition config : gmap string string :=
  {[ "gapps.prefix" := "open_gapps"; "gapps.time_format" := "20060102";
     "gapps.local_path" := "/data/"; "gapps.local_url" := "https://local.example/%s";
     "gapps.remote_url" := "https://mirror.example/%s" ]}.

(** Only the URL template of the local tier is set, not its path. *)
Definition configURLOnly : gmap string string :=
  {[ "gapps.local_url" := "https://local.example/%s" ]}.

Definition parseAsset :=
  storage.parseAsset (Platform := Platform) (Android := Android) (Variant := Variant) world.

Definition parseAssetDotted :=
  storage.parseAsset (Platform := Platform) (Android := Android) (Variant := Variant)
    (EA := Android_dotted) world.

(** The name made of the tokens as the enumeration spells them. *)
Definition plainName : string := "open_gapps-arm64-110-pico-20230101.zip".

(** The upload request for [package] once it is placed under [/data/]. *)
Definition request : Request :=
  mkRequest "PUT" "https://mirror.example/open_gapps-arm64-11.0-pico-20230101.zip"
    (<["Max-Days" := ["7"]]> (<["Content-Type" := ["application/zip"]]> ∅))
    (FileOf "/data/arm64/20230101/open_gapps-arm64-11.0-pico-20230101.zip").

End sample.

(** ** Kinds of events, shapes of errors, and worlds that fail *)

Definition isRemove (ev : Event) : bool :=
  match ev with EvRemove _ => true | _ => false end.

Definition isDo (ev : Event) : bool :=
  match ev with EvDo _ => true | _ => false end.

Definition isSetMirrorURL (ev : Event) : bool :=
  match ev with EvSetMirrorURL _ => true | _ => false end.

(** How [storage.CreateMirror] on [p] under [cfg] can fail: the call that
    failed, as it appears in the trace [t] and as the world answered it,
    and the error that is returned for it. *)
Inductive mirrorFailure {P A V} (W : World) (cfg : gmap string string)
    (p : storage.Package P A V) (t : list Event) : error -> Prop :=
| FailDownload e :
    dq_AddMultiple W (storage.OriginURL p) (storage.MD5 p) 20 (storage.Size p) = Err e ->
    mirrorFailure W cfg p t (Wrap e "unable to read file body")
| FailMkdir dir perm e :
    In (EvMkdirAll dir perm) t -> os_MkdirAll W dir perm = Some e ->
    mirrorFailure W cfg p t
      (Wrap (Wrap e "unable to create folder") "unable to move the file to storage")
| FailRename oldpath newpath e :
    In (EvRename oldpath newpath) t -> os_Rename W oldpath newpath = Some e ->
    mirrorFailure W cfg p t
      (Wrap (Wrap e "unable to move file") "unable to move the file to storage")
| FailChmod path perm e :
    In (EvChmod path perm) t -> os_Chmod W path perm = Some e ->
    mirrorFailure W cfg p t
      (Wrap (Wrap e "unable to set file permissions") "unable to move the file to storage")
| FailOpen path e :
    In (EvOpen path) t -> os_Open W path = Err e ->
    mirrorFailure W cfg p t (Wrap e "unable to create temp file")
| FailRequest e :
    url_Parse W (fmt_Sprintf W (GetString cfg "gapps.remote_url") (storage.Name p)) = Some e ->
    mirrorFailure W cfg p t (Wrap e "unable to create upload request")
| FailDo req e :
    In (EvDo req) t -> http_Do W req = Err e ->
    mirrorFailure W cfg p t (Wrap e "unable to make upload request")
| FailStatus req resp :
    In (EvDo req) t -> http_Do W req = Ok resp -> StatusCode resp <> 200%Z ->
    mirrorFailure W cfg p t (Errorf ("unable to make upload request: " +:+ Status resp))
| FailBody req resp e :
    In (EvDo req) t -> http_Do W req = Ok resp -> StatusCode resp = 200%Z ->
    Body resp = Err e ->
    mirrorFailure W cfg p t (Wrap e "unable to read mirror response body").

(** The three steps of [storage.getMD5] that can fail, by their message. *)
Inductive md5Step : string -> Prop :=
| StepDownload : md5Step "unable to download MD5 file"
| StepOpen : md5Step "unable to open MD5 file"
| StepRead : md5Step "unable to read MD5 file".

(** The fields of the older [Package] other than [MirrorURL]. *)
Definition gappsFields {P A V} (p : gapps.Package P A V)
  : string * string * string * string * Z * P * A * V :=
  (gapps.Name p, gapps.Date p, gapps.OriginURL p, gapps.MD5 p, gapps.Size p,
   gapps.Platform_ p, gapps.Android_ p, gapps.Variant_ p).

Module faulty.

(** The sample world with a storage folder that takes no file: the rename
    fails. *)
Definition noRename : World := {|
  dq_AddMultiple := dq_AddMultiple sample.world;
  dq_AddSingle := dq_AddSingle sample.world;
  utils_Download := utils_Download sample.world;
  utils_CreateFile := utils_CreateFile sample.world;
  os_MkdirAll := os_MkdirAll sample.world;
  os_Rename oldpath newpath := Some (External "rename: permission denied");
  os_Chmod := os_Chmod sample.world;
  os_Open := os_Open sample.world;
  ioutil_ReadAll := ioutil_ReadAll sample.world;
  filepath_Clean := filepath_Clean sample.world;
  url_Parse := url_Parse sample.world;
  http_Do := http_Do sample.world;
  fmt_Sprintf := fmt_Sprintf sample.world;
  time_Parse := time_Parse sample.world
|}.

(** The sample world with a mirror that cannot be reached. *)
Definition noMirror : World := {|
  dq_AddMultiple := dq_AddMultiple sample.world;
  dq_AddSingle := dq_AddSingle sample.world;
  utils_Download := utils_Download sample.world;
  utils_CreateFile := utils_CreateFile sample.world;
  os_MkdirAll := os_MkdirAll sample.world;
  os_Rename := os_Rename sample.world;
  os_Chmod := os_Chmod sample.world;
  os_Open := os_Open sample.world;
  ioutil_ReadAll := ioutil_ReadAll sample.world;
  filepath_Clean := filepath_Clean sample.world;
  url_Parse := url_Parse sample.world;
  http_Do req := Err (External "dial tcp: connection refused");
  fmt_Sprintf := fmt_Sprintf sample.world;
  time_Parse := time_Parse sample.world
|}.

(** The sample world with files that open and then fail to read. *)
Definition noRead : World := {|
  dq_AddMultiple := dq_AddMultiple sample.world;
  dq_AddSingle := dq_AddSingle sample.world;
  utils_Download := utils_Download sample.world;
  utils_CreateFile := utils_CreateFile sample.world;
  os_MkdirAll := os_MkdirAll sample.world;
  os_Rename := os_Rename sample.world;
  os_Chmod := os_Chmod sample.world;
  os_Open := os_Open sample.world;
  ioutil_ReadAll f := Err (External "read: input/output error");
  filepath_Clean := filepath_Clean sample.world;
  url_Parse := url_Parse sample.world;
  http_Do := http_Do sample.world;
  fmt_Sprintf := fmt_Sprintf sample.world;
  time_Parse := time_Parse sample.world
|}.

(** The configuration of the sample without the local tier. *)
Definition remoteOnly : gmap string string :=
  {[ "gapps.prefix" := "open_gapps"; "gapps.time_format" := "20060102";
     "gapps.remote_url" := "https://mirror.example/%s" ]}.

(** The checksum asset next to [sample.zipAsset]. *)
Definition md5Asset : ReleaseAsset :=
  mkAsset "open_gapps-arm64-11.0-pico-20230101.zip.md5"
    "https://releases.example/open_gapps-arm64-11.0-pico-20230101.zip.md5" 75.

(** The package of the sample in the older shape of package [gapps]. *)
Definition oldPackage : gapps.Package sample.Platform sample.Android sample.Variant :=
  gapps.mkPackage sample.zipName "20230101" (GetBrowserDownloadURL sample.zipAsset) ""
    "0123456789abcdef" (GetSize sample.zipAsset)
    sample.PlatformArm64 sample.Android110 sample.VariantPico.

End faulty.

(** * Properties *)

(** ** Strings *)

Section Strings.

Lemma append_cons (x : ascii) (a b : string) : String x a +:+ b = String x (a +:+ b).
Proof. reflexivity. Qed.

Lemma append_empty_l (a : string) : "" +:+ a = a.
Proof. reflexivity. Qed.

Lemma append_assoc (a b c : string) : (a +:+ b) +:+ c = a +:+ (b +:+ c).
Proof.
  induction a as [|x a IH]; [reflexivity|]. rewrite !append_cons. now rewrite IH.
Qed.

Lemma append_empty_r (a : string) : a +:+ "" = a.
Proof.
  induction a as [|x a IH]; [reflexivity|]. rewrite append_cons. now rewrite IH.
Qed.

Lemma HasPrefix_app (a b : string) : HasPrefix (a +:+ b) a = true.
Proof.
  unfold HasPrefix. induction a as [|x a IH]; [now destruct b|].
  rewrite append_cons. simpl. destruct (ascii_dec x x); [exact IH | congruence].
Qed.

Lemma string_drop_app (a b : string) : string_drop (String.length a) (a +:+ b) = b.
Proof. induction a as [|x a IH]; [reflexivity | rewrite append_cons; exact IH]. Qed.

Lemma TrimPrefix_app (a b : string) : TrimPrefix (a +:+ b) a = b.
Proof. unfold TrimPrefix. rewrite HasPrefix_app. apply string_drop_app. Qed.

Lemma string_drop_empty (n : nat) : string_drop n "" = "".
Proof. destruct n; reflexivity. Qed.

Lemma HasPrefix_empty (sep : string) : sep <> "" -> HasPrefix "" sep = false.
Proof. destruct sep; [congruence | reflexivity]. Qed.

Lemma HasPrefix_length (s sep : string) :
  HasPrefix s sep = true -> (String.length sep <= String.length s)%nat.
Proof.
  unfold HasPrefix. revert s. induction sep as [|x sep IH]; intros s H; simpl; [lia|].
  destruct s as [|y s]; simpl in *; [discriminate|].
  destruct (ascii_dec x y); [|discriminate]. apply IH in H. lia.
Qed.

Lemma occurs_app (c : ascii) (a b : string) :
  occurs c (a +:+ b) = occurs c a || occurs c b.
Proof.
  induction a as [|x a IH]; [reflexivity|]. rewrite append_cons. simpl.
  destruct (ascii_dec c x); [reflexivity | exact IH].
Qed.

(** *** [Index] finds the first occurrence *)

Lemma Index_eq (s sep : string) :
  Index s sep =
    if HasPrefix s sep then Some O
    else match s with
         | EmptyString => None
         | String _ s' => S <$> Index s' sep
         end.
Proof. destruct s; reflexivity. Qed.

Lemma Index_Some (s sep : string) (m : nat) :
  Index s sep = Some m ->
  occursAt sep s m /\ forall j, (j < m)%nat -> ~ occursAt sep s j.
Proof.
  unfold occursAt. revert m. induction s as [|c s IH]; intros m; rewrite Index_eq.
  - destruct (HasPrefix "" sep) eqn:E; [|discriminate].
    intros [= <-]. split; [exact E | intros j Hj; lia].
  - destruct (HasPrefix (String c s) sep) eqn:E.
    + intros [= <-]. split; [exact E | intros j Hj; lia].
    + destruct (Index s sep) as [k|] eqn:Ek; [|discriminate].
      intros [= <-]. destruct (IH k eq_refl) as [Hk Hmin]. split; [exact Hk|].
      intros [|j] Hj; [cbn [string_drop]; congruence | apply Hmin; lia].
Qed.

Lemma Index_None (s sep : string) :
  Index s sep = None -> forall j, (j <= String.length s)%nat -> ~ occursAt sep s j.
Proof.
  unfold occursAt. induction s as [|c s IH]; rewrite Index_eq.
  - destruct (HasPrefix "" sep) eqn:E; [discriminate|].
    intros _ j Hj. rewrite string_drop_empty. congruence.
  - destruct (HasPrefix (String c s) sep) eqn:E; [discriminate|].
    destruct (Index s sep) eqn:Ek; [discriminate|].
    intros _ [|j] Hj; [cbn [string_drop]; congruence | apply IH; [reflexivity | simpl in Hj; lia]].
Qed.

(** An occurrence makes [Index] answer. *)
Lemma Index_occurs (s sep : string) (j : nat) :
  occursAt sep s j -> (j <= String.length s)%nat -> exists m, Index s sep = Some m.
Proof.
  intros Hocc Hj. destruct (Index s sep) as [m|] eqn:E; [eauto|].
  exfalso. exact (Index_None s sep E j Hj Hocc).
Qed.

(** *** [Split] is Go's loop: cut at [Index], go on after the separator *)

Lemma splitFrom_skip (sep : string) (k : nat) (s : string) :
  splitFrom sep k s = splitFrom sep O (string_drop k s).
Proof.
  revert k. induction s as [|c s IH]; intros [|k]; try reflexivity.
  simpl splitFrom at 1. simpl string_drop. apply IH.
Qed.

Lemma splitFrom_cons (sep : string) (c : ascii) (s : string) :
  splitFrom sep O (String c s) =
    if HasPrefix (String c s) sep
    then EmptyString :: splitFrom sep (String.length sep - 1) s
    else consHead c (splitFrom sep O s).
Proof. reflexivity. Qed.

Lemma Split_Index (s sep : string) :
  sep <> "" ->
  Split s sep =
    match Index s sep with
    | None => [s]
    | Some m => string_take m s :: Split (string_drop (m + String.length sep) s) sep
    end.
Proof.
  intros Hsep. unfold Split. induction s as [|c s IH]; rewrite Index_eq.
  - now rewrite HasPrefix_empty.
  - rewrite splitFrom_cons. destruct (HasPrefix (String c s) sep) eqn:E.
    + rewrite splitFrom_skip. destruct sep as [|x sep]; [congruence|].
      simpl. now rewrite Nat.sub_0_r.
    + rewrite IH. destruct (Index s sep) as [m|]; reflexivity.
Qed.

Lemma Split_nonempty (s sep : string) : Split s sep <> [].
Proof.
  unfold Split. generalize O. induction s as [|c s IH]; intros k; [discriminate|].
  destruct k; [|apply IH]. rewrite splitFrom_cons.
  destruct (HasPrefix (String c s) sep); [discriminate|].
  specialize (IH O). destruct (splitFrom sep O s); [congruence | discriminate].
Qed.

(** *** The first piece of a split *)

Lemma occursAt_length (sep s : string) (m : nat) :
  sep <> "" -> occursAt sep s m -> (m <= String.length s)%nat.
Proof.
  unfold occursAt. intros Hsep. revert m.
  induction s as [|c s IH]; intros [|m] H; simpl; try lia.
  - cbn [string_drop] in H. now rewrite HasPrefix_empty in H.
  - cbn [string_drop] in H. apply IH in H. lia.
Qed.

Lemma first_Split (s sep : string) :
  sep <> "" ->
  first (Split s sep) =
    match Index s sep with
    | Some m => string_take m s
    | None => s
    end.
Proof.
  intros Hsep. rewrite (Split_Index s sep Hsep).
  destruct (Index s sep); reflexivity.
Qed.

Lemma first_Split_cut (s sep : string) :
  sep <> "" -> cutBefore sep s (first (Split s sep)).
Proof.
  intros Hsep. rewrite (first_Split s sep Hsep).
  destruct (Index s sep) as [m|] eqn:E.
  - left. exists m. destruct (Index_Some s sep m E) as [H1 H2]. auto.
  - right. split; [|reflexivity]. intros j Hj.
    apply (Index_None s sep E j); [|exact Hj].
    now apply (occursAt_length sep).
Qed.

(** There is only one such piece. *)
Lemma cutBefore_unique (s sep a b : string) :
  cutBefore sep s a -> cutBefore sep s b -> a = b.
Proof.
  intros [(m & Hm & Hmin & ->)|[Hno ->]] [(k & Hk & Hkmin & ->)|[Hno' ->]].
  - destruct (lt_eq_lt_dec m k) as [[Hlt| ->]|Hlt]; [|reflexivity|].
    + now apply Hkmin in Hlt.
    + now apply Hmin in Hlt.
  - now apply Hno' in Hm.
  - now apply Hno in Hk.
  - reflexivity.
Qed.

(** *** Splitting on one byte *)

Lemma HasPrefix_char (c x : ascii) (s : string) :
  HasPrefix (String x s) (String c "") = if ascii_dec c x then true else false.
Proof.
  unfold HasPrefix. simpl. destruct (ascii_dec c x); [now destruct s | reflexivity].
Qed.

Lemma Split_char_none (c : ascii) (s : string) :
  occurs c s = false -> Split s (String c "") = [s].
Proof.
  unfold Split. induction s as [|x s IH]; [reflexivity|].
  rewrite splitFrom_cons, HasPrefix_char. simpl.
  destruct (ascii_dec c x); [discriminate|]. intros H. now rewrite IH.
Qed.

Lemma Split_char_app (c : ascii) (a b : string) :
  occurs c a = false ->
  Split (a +:+ String c b) (String c "") = a :: Split b (String c "").
Proof.
  unfold Split. induction a as [|x a IH].
  - intros _. rewrite append_empty_l, splitFrom_cons, HasPrefix_char.
    destruct (ascii_dec c c); [reflexivity | congruence].
  - rewrite append_cons, splitFrom_cons, HasPrefix_char. simpl.
    destruct (ascii_dec c x); [discriminate|]. intros H. now rewrite IH.
Qed.

End Strings.

(** ** [ParsePackageParts] *)

Section ParsePackagePartsFacts.
Context {Platform Android Variant : Type}.
Context `{EP : Enumer Platform} `{EA : Enumer Android} `{EV : Enumer Variant}.

Abbreviation ParsePackageParts :=
  (gapps.ParsePackageParts (Platform := Platform) (Android := Android) (Variant := Variant)).
Abbreviation PlatformString := (gapps.PlatformString (Platform := Platform)).
Abbreviation AndroidString := (gapps.AndroidString (Android := Android)).
Abbreviation VariantString := (gapps.VariantString (Variant := Variant)).

Lemma failed_Ok {A} (a : A) : ~ failed (Ok a).
Proof. intros [e He]. discriminate. Qed.

Lemma failed_Err {A} (e : error) : failed (Err e : result A).
Proof. now exists e. Qed.

(** All three lookups succeed: the values come back with a nil error. *)
Lemma ParsePackageParts_ok (a0 a1 a2 : string) P A V :
  PlatformString a0 = Ok P -> AndroidString a1 = Ok A -> VariantString a2 = Ok V ->
  ParsePackageParts [a0; a1; a2] = (P, A, V, None).
Proof.
  intros HP HA HV. unfold gapps.ParsePackageParts, idx. simpl.
  now rewrite HP, HA, HV.
Qed.

Lemma ParsePackageParts_length (args : list string) :
  length args <> 3%nat ->
  ParsePackageParts args =
    (zero, zero, zero,
     Some (Errorf ("bad number of arguments: want 4, got " +:+ pretty (length args)))).
Proof.
  intros H. unfold gapps.ParsePackageParts.
  destruct (Nat.eqb_spec (length args) 3); [contradiction | reflexivity].
Qed.

(** A failed call returns the three zero values and an error of one of
    two shapes. *)
Lemma ParsePackageParts_err (args : list string) P A V err :
  ParsePackageParts args = (P, A, V, Some err) ->
  P = zero /\ A = zero /\ V = zero /\
  (err = Errorf ("bad number of arguments: want 4, got " +:+ pretty (length args))
   \/ exists cause, err = Wrap cause gapps.parsingErrText).
Proof.
  unfold gapps.ParsePackageParts.
  destruct (negb (length args =? 3)%nat).
  - intros [= <- <- <- <-]. auto.
  - destruct (PlatformString (idx args 0)); [|intros [= <- <- <- <-]; eauto 6].
    destruct (AndroidString (idx args 1)); [|intros [= <- <- <- <-]; eauto 6].
    destruct (VariantString (idx args 2)); [discriminate|intros [= <- <- <- <-]; eauto 6].
Qed.

(** C10. [ParsePackageParts] returns an error exactly when [len(args)] is
    not 3 or one of the three lookups (platform on [args[0]], android on
    [args[1]], variant on [args[2]]) fails; when the length is wrong the
    message is "bad number of arguments: want 4, got <n>", [<n>] the
    length in decimal, although the length that is accepted is 3. *)
Theorem ParsePackageParts_error_iff (args : list string) :
  (snd (ParsePackageParts args) <> None <->
     length args <> 3%nat
     \/ failed (PlatformString (idx args 0))
     \/ failed (AndroidString (idx args 1))
     \/ failed (VariantString (idx args 2)))
  /\ (length args <> 3%nat ->
      exists err,
        snd (ParsePackageParts args) = Some err
        /\ ErrorString err
           = "bad number of arguments: want 4, got " +:+ pretty (length args))
  /\ snd (ParsePackageParts ["arm64"; "110"]) =
       Some (Errorf "bad number of arguments: want 4, got 2")
  /\ snd (ParsePackageParts ["arm64"; "110"; "pico"; "20230101"]) =
       Some (Errorf "bad number of arguments: want 4, got 4").
Proof.
  split; [|split; [|split; reflexivity]].
  - unfold gapps.ParsePackageParts.
    destruct (Nat.eqb_spec (length args) 3) as [Hlen|Hlen]; simpl.
    + destruct (PlatformString (idx args 0)) eqn:HP; simpl.
      2:{ split; [intros _; right; left; apply failed_Err | discriminate]. }
      destruct (AndroidString (idx args 1)) eqn:HA; simpl.
      2:{ split; [intros _; right; right; left; apply failed_Err | discriminate]. }
      destruct (VariantString (idx args 2)) eqn:HV; simpl.
      2:{ split; [intros _; right; right; right; apply failed_Err | discriminate]. }
      split; [congruence|].
      intros [H|[H|[H|H]]]; [contradiction | | | ]; exfalso; revert H; apply failed_Ok.
    + split; [intros _; now left | discriminate].
  - intros Hlen. rewrite (ParsePackageParts_length args Hlen). simpl. eauto.
Qed.

End ParsePackagePartsFacts.

(** ** [parseAsset] *)

Section ParseAssetFacts.
Context {Platform Android Variant : Type}.
Context `{EP : Enumer Platform} `{EA : Enumer Android} `{EV : Enumer Variant}.
Variable W : World.

Abbreviation parseAsset :=
  (storage.parseAsset (Platform := Platform) (Android := Android) (Variant := Variant) W).
Abbreviation PlatformString := (gapps.PlatformString (Platform := Platform)).
Abbreviation AndroidString := (gapps.AndroidString (Android := Android)).
Abbreviation VariantString := (gapps.VariantString (Variant := Variant)).

Lemma last_three (l : list string) : length l = 3%nat -> List.last l "" = idx l 2.
Proof. destruct l as [|a [|b [|c [|]]]]; simpl; intros H; try discriminate; reflexivity. Qed.

(** [parseAsset] is total, and returns either a package with a nil error
    or no package with an error. *)
Lemma parseAsset_package_or_error cfg asset md5 :
  (exists p, parseAsset cfg asset md5 = (Some p, None))
  \/ (exists err, parseAsset cfg asset md5 = (None, Some err)).
Proof.
  unfold storage.parseAsset.
  destruct (negb (length _ =? 3)%nat); [eauto|].
  destruct (negb (String.eqb _ "zip")); [eauto|].
  destruct (negb (length _ =? 4)%nat); [eauto|].
  destruct (gapps.ParsePackageParts _) as [[[P A] V] [err|]]; [eauto|].
  destruct (time_Parse W _ _); eauto.
Qed.

(** C4. An asset name is rejected when its split on "." does not give
    exactly 3 segments, when the last of these is not "zip", when the split
    of the re-joined first two segments on the separator does not give
    exactly 4 tokens, when the platform, android or variant token is not
    known to its enumeration, or when the date token does not parse under
    the configured format: [parseAsset] then returns a nil package, never
    a partly filled one, and the error of the first check that fails:
    "incorrect package name: <name>" for either count, "incorrect package
    extension: <ext>", the error of the lookup under "parsing error", or
    the error of [time.Parse] under "unable to parse time". *)
Theorem parseAsset_rejects cfg asset md5 :
  let name := GetName asset in
  let parts :=
    Split (TrimPrefix name (GetString cfg "gapps.prefix" +:+ storage.gappsSeparator)) "." in
  let tokens := Split (idx parts 0 +:+ idx parts 1) storage.gappsSeparator in
  length parts <> 3%nat
  \/ List.last parts "" <> "zip"
  \/ length tokens <> 4%nat
  \/ failed (PlatformString (idx tokens 0))
  \/ failed (AndroidString (idx tokens 1))
  \/ failed (VariantString (idx tokens 2))
  \/ time_Parse W (GetString cfg "gapps.time_format") (idx tokens 3) <> None ->
  exists err,
    parseAsset cfg asset md5 = (None, Some err)
    /\ parseError name (idx parts 2) err
    /\ (length parts <> 3%nat -> err = Errorf ("incorrect package name: " +:+ name))
    /\ (length parts = 3%nat -> idx parts 2 <> "zip" ->
        err = Errorf ("incorrect package extension: " +:+ idx parts 2))
    /\ (length parts = 3%nat -> idx parts 2 = "zip" -> length tokens <> 4%nat ->
        err = Errorf ("incorrect package name: " +:+ name))
    /\ (length parts = 3%nat -> idx parts 2 = "zip" -> length tokens = 4%nat ->
        (forall e, PlatformString (idx tokens 0) = Err e -> err = Wrap e "parsing error")
        /\ (forall P e,
              PlatformString (idx tokens 0) = Ok P ->
              AndroidString (idx tokens 1) = Err e -> err = Wrap e "parsing error")
        /\ (forall P A e,
              PlatformString (idx tokens 0) = Ok P ->
              AndroidString (idx tokens 1) = Ok A ->
              VariantString (idx tokens 2) = Err e -> err = Wrap e "parsing error")
        /\ (forall P A V e,
              PlatformString (idx tokens 0) = Ok P ->
              AndroidString (idx tokens 1) = Ok A ->
              VariantString (idx tokens 2) = Ok V ->
              time_Parse W (GetString cfg "gapps.time_format") (idx tokens 3) = Some e ->
              err = Wrap e "unable to parse time")).
Proof.
  intros name parts tokens Hbad. unfold storage.parseAsset.
  fold name. fold parts.
  destruct (Nat.eqb_spec (length parts) 3) as [Hlen|Hlen]; simpl;
    [|eexists; split; [reflexivity|]; split; [constructor|];
      repeat split; intros; first [reflexivity | contradiction]].
  destruct (String.eqb_spec (idx parts 2) "zip") as [Hzip|Hzip]; simpl;
    [|eexists; split; [reflexivity|]; split; [constructor|];
      repeat split; intros; first [reflexivity | contradiction]].
  fold tokens.
  destruct (Nat.eqb_spec (length tokens) 4) as [Htok|Htok]; simpl;
    [|eexists; split; [reflexivity|]; split; [constructor|];
      repeat split; intros; first [reflexivity | contradiction]].
  rewrite (last_three parts Hlen) in Hbad.
  destruct tokens as [|t0 [|t1 [|t2 [|t3 [|]]]]]; try discriminate Htok.
  unfold gapps.ParsePackageParts, gapps.parsingErrText, idx in *. simpl in *.
  destruct (gapps.PlatformString t0) as [P|e] eqn:HP;
    [|eexists; split; [reflexivity|]; split; [constructor|];
      repeat split; intros; first [contradiction | congruence]].
  destruct (gapps.AndroidString t1) as [A|e] eqn:HA;
    [|eexists; split; [reflexivity|]; split; [constructor|];
      repeat split; intros; first [contradiction | congruence]].
  destruct (gapps.VariantString t2) as [V|e] eqn:HV;
    [|eexists; split; [reflexivity|]; split; [constructor|];
      repeat split; intros; first [contradiction | congruence]].
  destruct (time_Parse W (GetString cfg "gapps.time_format") t3) as [e|] eqn:HT;
    [eexists; split; [reflexivity|]; split; [constructor|];
      repeat split; intros; first [contradiction | congruence]|].
  exfalso.
  destruct Hbad as [H|[H|[H|[H|[H|[H|H]]]]]]; try congruence;
    revert H; apply failed_Ok.
Qed.

(** The converse: when all five checks pass, a package comes back. *)
Lemma parseAsset_accepts cfg asset md5 t0 t1 t2 t3 a b P A V :
  Split (TrimPrefix (GetName asset) (GetString cfg "gapps.prefix" +:+ "-")) "." =
    [a; b; "zip"] ->
  Split (a +:+ b) "-" = [t0; t1; t2; t3] ->
  PlatformString t0 = Ok P -> AndroidString t1 = Ok A -> VariantString t2 = Ok V ->
  time_Parse W (GetString cfg "gapps.time_format") t3 = None ->
  parseAsset cfg asset md5 =
    (Some (storage.mkPackage (GetName asset) t3 (GetBrowserDownloadURL asset) "" ""
                             md5 (GetSize asset) P A V), None).
Proof.
  intros Hparts Htok HP HA HV HT. unfold storage.parseAsset, storage.gappsSeparator.
  rewrite Hparts. unfold idx. simpl. rewrite Htok. simpl.
  rewrite (ParsePackageParts_ok t0 t1 t2 P A V HP HA HV). now rewrite HT.
Qed.

(** *** Names of the form [prefix-platform-X.Y-variant-date.zip] *)

Lemma Split_dots (a b : string) :
  occurs "." a = false -> occurs "." b = false ->
  Split (a +:+ "." +:+ b +:+ ".zip") "." = [a; b; "zip"].
Proof.
  intros Ha Hb.
  change (a +:+ "." +:+ b +:+ ".zip") with (a +:+ String "." (b +:+ String "." "zip")).
  rewrite (Split_char_app "." a _ Ha), (Split_char_app "." b _ Hb).
  reflexivity.
Qed.

Lemma Split_dashes (t0 t1 t2 t3 : string) :
  occurs "-" t0 = false -> occurs "-" t1 = false ->
  occurs "-" t2 = false -> occurs "-" t3 = false ->
  Split (t0 +:+ "-" +:+ t1 +:+ "-" +:+ t2 +:+ "-" +:+ t3) "-" = [t0; t1; t2; t3].
Proof.
  intros H0 H1 H2 H3.
  change (t0 +:+ "-" +:+ t1 +:+ "-" +:+ t2 +:+ "-" +:+ t3)
    with (t0 +:+ String "-" (t1 +:+ String "-" (t2 +:+ String "-" t3))).
  rewrite (Split_char_app "-" t0 _ H0), (Split_char_app "-" t1 _ H1),
    (Split_char_app "-" t2 _ H2).
  now rewrite (Split_char_none "-" t3 H3).
Qed.

(** C3, as the code has it. The name is
    [prefix-platform-X.Y-variant-date.zip]: the android version is written
    with one dot, and no token holds a "." or a "-".  The re-join of the
    two segments drops the dot, so the lookup is made on [XY].  When the
    platform token, [XY] and the variant token are known and the date
    parses under the configured format, [parseAsset] succeeds, and the
    package has the values of these lookups, the date token as [Date] and
    the asset name as [Name]. *)
Theorem parseAsset_roundtrip cfg url size md5 (p x y v d : string) P A V :
  occurs "." p = false -> occurs "-" p = false ->
  occurs "." x = false -> occurs "-" x = false ->
  occurs "." y = false -> occurs "-" y = false ->
  occurs "." v = false -> occurs "-" v = false ->
  occurs "." d = false -> occurs "-" d = false ->
  PlatformString p = Ok P ->
  AndroidString (x +:+ y) = Ok A ->
  VariantString v = Ok V ->
  time_Parse W (GetString cfg "gapps.time_format") d = None ->
  let name :=
    GetString cfg "gapps.prefix" +:+ "-" +:+
      p +:+ "-" +:+ x +:+ "." +:+ y +:+ "-" +:+ v +:+ "-" +:+ d +:+ ".zip" in
  parseAsset cfg (mkAsset name url size) md5 =
    (Some (storage.mkPackage name d url "" "" md5 size P A V), None).
Proof.
  intros Hp Hp' Hx Hx' Hy Hy' Hv Hv' Hd Hd' HP HA HV HT name.
  apply (parseAsset_accepts cfg (mkAsset name url size) md5
           p (x +:+ y) v d (p +:+ "-" +:+ x) (y +:+ "-" +:+ v +:+ "-" +:+ d));
    try assumption.
  - simpl GetName. unfold name.
    rewrite <- (append_assoc (GetString cfg "gapps.prefix") "-").
    rewrite TrimPrefix_app.
    rewrite <- (Split_dots (p +:+ "-" +:+ x) (y +:+ "-" +:+ v +:+ "-" +:+ d)).
    + f_equal. now rewrite !append_assoc.
    + rewrite !occurs_app, Hp, Hx. reflexivity.
    + rewrite !occurs_app, Hy, Hv, Hd. reflexivity.
  - rewrite <- (Split_dashes p (x +:+ y) v d); try assumption.
    + f_equal. now rewrite !append_assoc.
    + rewrite occurs_app, Hx', Hy'. reflexivity.
Qed.

(** X27. A name built from the tokens alone, with no dot in the android
    token, has only two segments and is rejected, whatever the
    enumerations. *)
Lemma parseAsset_dotless cfg url size md5 (p a v d : string) :
  occurs "." p = false -> occurs "." a = false ->
  occurs "." v = false -> occurs "." d = false ->
  let name :=
    GetString cfg "gapps.prefix" +:+ "-" +:+
      p +:+ "-" +:+ a +:+ "-" +:+ v +:+ "-" +:+ d +:+ ".zip" in
  parseAsset cfg (mkAsset name url size) md5 =
    (None, Some (Errorf ("incorrect package name: " +:+ name))).
Proof.
  intros Hp Ha Hv Hd name. unfold storage.parseAsset, storage.gappsSeparator.
  simpl GetName. unfold name at 1.
  rewrite <- (append_assoc (GetString cfg "gapps.prefix") "-").
  rewrite TrimPrefix_app.
  replace (p +:+ "-" +:+ a +:+ "-" +:+ v +:+ "-" +:+ d +:+ ".zip")
    with ((p +:+ "-" +:+ a +:+ "-" +:+ v +:+ "-" +:+ d) +:+ String "." "zip")
    by now rewrite !append_assoc.
  rewrite Split_char_app.
  - reflexivity.
  - rewrite !occurs_app, Hp, Ha, Hv, Hd. reflexivity.
Qed.

End ParseAssetFacts.

(** ** [CreateMirror] *)

Lemma nonEmpty_true (s : string) : nonEmpty s = true <-> s <> "".
Proof. destruct s; simpl; split; congruence. Qed.

Lemma nonEmpty_false (s : string) : nonEmpty s = false <-> s = "".
Proof. destruct s; simpl; split; congruence. Qed.

(** Unfold a function body down to the calls it makes. *)
Ltac run_body :=
  cbv beta iota zeta delta
    [storage.CreateMirror storage.CreateMirror_body storage.upload storage.move
     storage.setLocalURL storage.setRemoteURL storage.getMD5 storage.getMD5_body
     gapps.CreateMirror gapps.CreateMirror_body gapps.setMirrorURL
     runFunc runValue wrapErr call callErr pureCall emit defer getPkg setPkg fail
     NewRequest mbind M_bind mret M_ret pkg trace defers fst snd app] in *.

(** Case analysis on the answer that decides the next branch. *)
Ltac next_answer :=
  match goal with
  | |- context [match ?x with _ => _ end] =>
      lazymatch x with
      | context [match _ with _ => _ end] => fail
      | _ => destruct x eqn:?
      end
  end; cbv beta iota in *.

Section CreateMirrorFacts.
Context {Platform Android Variant : Type}.
Context `{EP : Enumer Platform} `{EA : Enumer Android} `{EV : Enumer Variant}.
Variable W : World.

Abbreviation Package := (storage.Package Platform Android Variant).
Abbreviation CreateMirror := (storage.CreateMirror W).

Lemma mirrored_spec cfg (p : Package) :
  storage.mirrored cfg p = true <->
  (GetString cfg "gapps.local_url" <> "" /\ storage.LocalURL p <> "")
  \/ (GetString cfg "gapps.remote_url" <> "" /\ storage.RemoteURL p <> "").
Proof.
  unfold storage.mirrored. rewrite orb_true_iff, !andb_true_iff, !nonEmpty_true.
  reflexivity.
Qed.

(** C8. Whatever the outcome of [CreateMirror], [Name], [Date],
    [OriginURL], [MD5], [Size], [Platform], [Android] and [Variant] are
    what they were; the only writes are to [LocalURL] and [RemoteURL], and
    each happens at most once in a call. *)
Theorem CreateMirror_frame cfg (p : Package) :
  let r := CreateMirror cfg p in
  let p' := fst (fst r) in
  let t := snd r in
  storage.Name p' = storage.Name p
  /\ storage.Date p' = storage.Date p
  /\ storage.OriginURL p' = storage.OriginURL p
  /\ storage.MD5 p' = storage.MD5 p
  /\ storage.Size p' = storage.Size p
  /\ storage.Platform_ p' = storage.Platform_ p
  /\ storage.Android_ p' = storage.Android_ p
  /\ storage.Variant_ p' = storage.Variant_ p
  /\ (times isSetLocalURL t <= 1)%nat
  /\ (times isSetRemoteURL t <= 1)%nat
  /\ (times isSetLocalURL t = 0%nat -> storage.LocalURL p' = storage.LocalURL p)
  /\ (times isSetRemoteURL t = 0%nat -> storage.RemoteURL p' = storage.RemoteURL p).
Proof.
  run_body. repeat next_answer; cbn; repeat split; auto; try lia; discriminate.
Qed.

(** Past the guard the first thing that happens is the one call to the
    download queue. *)
Lemma CreateMirror_starts cfg (p : Package) :
  storage.mirrored cfg p = false ->
  exists t,
    snd (CreateMirror cfg p) =
      EvAddMultiple (storage.OriginURL p) (storage.MD5 p) 20 (storage.Size p) :: t
    /\ times isAddMultiple t = 0%nat.
Proof.
  intros Hg. run_body. rewrite Hg.
  repeat next_answer; eexists; split; try reflexivity.
Qed.

Lemma CreateMirror_download_fails cfg (p : Package) err :
  storage.mirrored cfg p = false ->
  dq_AddMultiple W (storage.OriginURL p) (storage.MD5 p) 20 (storage.Size p) = Err err ->
  CreateMirror cfg p =
    (p, Some (Wrap err "unable to read file body"),
     [EvAddMultiple (storage.OriginURL p) (storage.MD5 p) 20 (storage.Size p)]).
Proof. intros Hg Hdl. run_body. now rewrite Hg, Hdl. Qed.

(** C1, as the code has it. [CreateMirror] returns success at once, with
    no download, move or upload and the package as it was, exactly when
    some configured tier already has its URL: [gapps.local_url] is set and
    [LocalURL] is not empty, or [gapps.remote_url] is set and [RemoteURL]
    is not empty.  In every other case the download queue is called. *)
Theorem CreateMirror_guard cfg (p : Package) :
  ((GetString cfg "gapps.local_url" <> "" /\ storage.LocalURL p <> "")
   \/ (GetString cfg "gapps.remote_url" <> "" /\ storage.RemoteURL p <> "")
   <-> CreateMirror cfg p = (p, None, []))
  /\ (CreateMirror cfg p <> (p, None, []) ->
      exists t,
        snd (CreateMirror cfg p) =
          EvAddMultiple (storage.OriginURL p) (storage.MD5 p) 20 (storage.Size p) :: t).
Proof.
  rewrite <- mirrored_spec.
  destruct (storage.mirrored cfg p) eqn:Hg.
  - assert (CreateMirror cfg p = (p, None, [])) as ->
      by (unfold storage.CreateMirror; now rewrite Hg).
    split; [tauto | congruence].
  - destruct (CreateMirror_starts cfg p Hg) as (t & Ht & _).
    split; [|eauto].
    split; [discriminate|]. intros H. rewrite H in Ht. discriminate.
Qed.

(** C7. Past the guard [CreateMirror] calls the download queue as
    [AddMultiple(p.OriginURL, p.MD5, 20, p.Size)], first and once; when
    that call fails, [CreateMirror] returns its error wrapped as "unable
    to read file body", nothing else has happened, and the package is
    untouched. *)
Theorem CreateMirror_download cfg (p : Package) :
  storage.mirrored cfg p = false ->
  (exists t,
      snd (CreateMirror cfg p) =
        EvAddMultiple (storage.OriginURL p) (storage.MD5 p) 20 (storage.Size p) :: t
      /\ times isAddMultiple t = 0%nat)
  /\ (forall err,
        dq_AddMultiple W (storage.OriginURL p) (storage.MD5 p) 20 (storage.Size p)
          = Err err ->
        CreateMirror cfg p =
          (p, Some (Wrap err "unable to read file body"),
           [EvAddMultiple (storage.OriginURL p) (storage.MD5 p) 20 (storage.Size p)])).
Proof.
  intros Hg. split.
  - exact (CreateMirror_starts cfg p Hg).
  - intros err. exact (CreateMirror_download_fails cfg p err Hg).
Qed.

Lemma TrimPrefix_placed (localPath plat date name : string) :
  TrimPrefix (((((localPath +:+ plat) +:+ "/") +:+ date) +:+ "/") +:+ name) localPath
  = plat +:+ "/" +:+ date +:+ "/" +:+ name.
Proof. rewrite !append_assoc. apply TrimPrefix_app. Qed.

Lemma CreateMirror_success_proj cfg (p : Package) :
  storage.mirrored cfg p = false ->
  let r := CreateMirror cfg p in
  let p' := fst (fst r) in
  snd (fst r) = None ->
  (GetString cfg "gapps.local_path" <> "" -> GetString cfg "gapps.local_url" <> "" ->
   storage.LocalURL p' =
     fmt_Sprintf W (GetString cfg "gapps.local_url")
       (toString (storage.Platform_ p) +:+ "/" +:+ storage.Date p +:+ "/" +:+ storage.Name p))
  /\ (GetString cfg "gapps.local_path" = "" \/ GetString cfg "gapps.local_url" = "" ->
      storage.LocalURL p' = storage.LocalURL p)
  /\ (GetString cfg "gapps.remote_url" <> "" ->
      exists req resp,
        In (EvDo req) (snd r) /\ http_Do W req = Ok resp
        /\ StatusCode resp = StatusOK /\ Body resp = Ok (storage.RemoteURL p'))
  /\ (GetString cfg "gapps.remote_url" = "" ->
      storage.RemoteURL p' = storage.RemoteURL p).
Proof.
  intros Hg. run_body. rewrite Hg.
  repeat next_answer; cbn [storage.withLocalURL storage.withRemoteURL
    storage.LocalURL storage.RemoteURL storage.Name storage.Date storage.Platform_];
    intros Hnil; try discriminate Hnil;
    repeat match goal with
      | H : nonEmpty _ = true |- _ => apply nonEmpty_true in H
      | H : nonEmpty _ = false |- _ => apply nonEmpty_false in H
      end;
    rewrite ?TrimPrefix_placed;
    (split; [|split; [|split]]); try tauto; try (intros [?|?]; tauto).
  all: intros _; do 2 eexists; split; [simpl; eauto 12|].
  all: split; [eassumption|]; split; [|assumption].
  all: match goal with
       | H : negb (_ =? _)%Z = false |- _ =>
           apply negb_false_iff, Z.eqb_eq in H; exact H
       end.
Qed.

(** C2, as the code has it. When [CreateMirror] returns nil past the
    guard: if [gapps.remote_url] is set, the upload was answered [200] and
    [RemoteURL] is the body of that answer; if [gapps.local_path] and
    [gapps.local_url] are both set, [LocalURL] is the template applied to
    [<Platform>/<Date>/<Name>]; if [gapps.local_url] is set and
    [gapps.local_path] is not, [LocalURL] is left as it was. *)
Theorem CreateMirror_success cfg (p p' : Package) t :
  storage.mirrored cfg p = false ->
  CreateMirror cfg p = (p', None, t) ->
  (GetString cfg "gapps.local_path" <> "" -> GetString cfg "gapps.local_url" <> "" ->
   storage.LocalURL p' =
     fmt_Sprintf W (GetString cfg "gapps.local_url")
       (toString (storage.Platform_ p) +:+ "/" +:+ storage.Date p +:+ "/" +:+ storage.Name p))
  /\ (GetString cfg "gapps.local_path" = "" \/ GetString cfg "gapps.local_url" = "" ->
      storage.LocalURL p' = storage.LocalURL p)
  /\ (GetString cfg "gapps.remote_url" <> "" ->
      exists req resp,
        In (EvDo req) t /\ http_Do W req = Ok resp
        /\ StatusCode resp = StatusOK /\ Body resp = Ok (storage.RemoteURL p'))
  /\ (GetString cfg "gapps.remote_url" = "" ->
      storage.RemoteURL p' = storage.RemoteURL p).
Proof.
  intros Hg Hrun. pose proof (CreateMirror_success_proj cfg p Hg) as H.
  cbv zeta in H. rewrite Hrun in H. exact (H eq_refl).
Qed.

(** C5. Every request [CreateMirror] sends is a PUT to the
    [gapps.remote_url] template with the package name put in, with the
    headers [Content-Type: application/zip] and [Max-Days: 7].  An answer
    with status 200 is a success and its body, as read, becomes
    [RemoteURL]; an answer with any other status, 201 too, is the error
    "unable to make upload request: <status>", and [RemoteURL] is not
    written. *)
Theorem CreateMirror_upload cfg (p : Package) req :
  let r := CreateMirror cfg p in
  let p' := fst (fst r) in
  In (EvDo req) (snd r) ->
  GetString cfg "gapps.remote_url" <> ""
  /\ Method req = "PUT"
  /\ URL req = fmt_Sprintf W (GetString cfg "gapps.remote_url") (storage.Name p)
  /\ Header req = <["Max-Days" := ["7"]]> (<["Content-Type" := ["application/zip"]]> ∅)
  /\ (forall resp, http_Do W req = Ok resp ->
       (StatusCode resp = 200%Z -> forall body, Body resp = Ok body ->
          snd (fst r) = None /\ storage.RemoteURL p' = body)
       /\ (StatusCode resp <> 200%Z ->
           snd (fst r) = Some (Errorf ("unable to make upload request: " +:+ Status resp))
           /\ storage.RemoteURL p' = storage.RemoteURL p)).
Proof.
  run_body.
  repeat next_answer;
    cbn [storage.withLocalURL storage.withRemoteURL storage.LocalURL storage.RemoteURL
         storage.Name In] in *;
    intros Hin;
    repeat (destruct Hin as [Hin|Hin]; [try discriminate Hin|]); try contradiction;
    injection Hin as <-;
    repeat match goal with
      | H : nonEmpty _ = true |- _ => apply nonEmpty_true in H
      | H : negb (_ =? _)%Z = false |- _ => apply negb_false_iff, Z.eqb_eq in H
      | H : negb (_ =? _)%Z = true |- _ => apply negb_true_iff, Z.eqb_neq in H
      end;
    (split; [assumption|]); (split; [reflexivity|]); (split; [reflexivity|]);
    (split; [reflexivity|]);
    match goal with
    | H : http_Do W _ = _ |- _ => intros resp Hresp; rewrite H in Hresp
    end;
    try discriminate Hresp; injection Hresp as <-;
    unfold StatusOK in *;
    (split; [intros Hcode; try contradiction; intros body Hbody
            | intros Hcode; try contradiction]);
    try (split; reflexivity); try congruence.
  all: split; [reflexivity | congruence].
Qed.

(** C6. When the three file-system calls succeed, [move] returns the
    destination [destFolder ++ Platform.String() ++ "/" ++ Date ++ "/" ++
    Name]; it has made the directory [destFolder ++ Platform.String() ++
    "/" ++ Date] with mode 0755, renamed the file to the destination, and
    set the mode of the file to 0755, in this order. *)
Theorem move_places origin destFolder (s : St Package) :
  let p := pkg s in
  let dir := destFolder +:+ toString (storage.Platform_ p) +:+ "/" +:+ storage.Date p in
  let path := dir +:+ "/" +:+ storage.Name p in
  os_MkdirAll W dir mode0755 = None ->
  os_Rename W origin path = None ->
  os_Chmod W path mode0755 = None ->
  storage.move W origin destFolder s =
    (mkSt p
       (trace s ++ [EvMkdirAll dir mode0755; EvRename origin path; EvChmod path mode0755])
       (defers s),
     Ok path)
  /\ path = destFolder +:+ toString (storage.Platform_ p) +:+ "/" +:+ storage.Date p
              +:+ "/" +:+ storage.Name p
  /\ mode0755 = 493%Z.
Proof.
  destruct s as [p t d]. cbn [pkg trace defers]. intros Hmk Hmv Hch.
  rewrite !append_assoc in *.
  split; [|split; reflexivity].
  cbv beta iota zeta delta
    [storage.move wrapErr call callErr getPkg mbind M_bind mret M_ret pkg trace defers].
  rewrite !append_assoc, Hmk, Hmv, Hch.
  now rewrite <- !app_assoc.
Qed.

(** C9. Once the checksum file is downloaded, opened and read, [getMD5]
    returns a nil error and the content up to, and without, the first two
    consecutive spaces; all of the content, a trailing newline included,
    when it holds no two consecutive spaces. *)
Theorem getMD5_cut url filePath file content :
  dq_AddSingle W url = Ok filePath ->
  os_Open W (filepath_Clean W filePath) = Ok file ->
  ioutil_ReadAll W file = Ok content ->
  exists md5,
    storage.getMD5 W url =
      (md5, None,
       [EvAddSingle url; EvOpen (filepath_Clean W filePath); EvReadFile file; EvClose file])
    /\ cutBefore "  " content md5.
Proof.
  intros Hdl Hopen Hread. exists (first (Split content "  ")). split.
  - run_body. now rewrite Hdl, Hopen, Hread.
  - now apply first_Split_cut.
Qed.

(** The older [getMD5] of package [gapps] cuts the downloaded body in the
    same way. *)
Lemma gapps_getMD5_cut url content :
  utils_Download W url 1 0 = Ok content ->
  exists md5, gapps.getMD5 W url = (md5, None) /\ cutBefore "  " content md5.
Proof.
  intros Hdl. exists (first (Split content "  ")). split.
  - unfold gapps.getMD5. now rewrite Hdl.
  - now apply first_Split_cut.
Qed.

End CreateMirrorFacts.

(** ** The older code of package [gapps] *)

Section GappsFacts.
Context {Platform Android Variant : Type}.
Context `{EP : Enumer Platform} `{EA : Enumer Android} `{EV : Enumer Variant}.
Variable W : World.

Abbreviation GPackage := (gapps.Package Platform Android Variant).

Lemma gapps_parseAsset_accepts asset md5 t0 t1 t2 t3 a b P A V :
  Split (TrimPrefix (GetName asset) "open_gapps-") "." = [a; b; "zip"] ->
  Split (a +:+ b) "-" = [t0; t1; t2; t3] ->
  gapps.PlatformString t0 = Ok P -> gapps.AndroidString t1 = Ok A ->
  gapps.VariantString t2 = Ok V ->
  time_Parse W gapps.TimeFormat t3 = None ->
  gapps.parseAsset W asset md5 =
    (Some (gapps.mkPackage (GetName asset) t3 (GetBrowserDownloadURL asset) ""
                           md5 (GetSize asset) P A V : GPackage), None).
Proof.
  intros Hparts Htok HP HA HV HT.
  unfold gapps.parseAsset, gapps.gappsPrefix, gapps.gappsSeparator.
  change ("open_gapps" +:+ "-") with "open_gapps-".
  rewrite Hparts. unfold idx. simpl. rewrite Htok. simpl.
  rewrite (ParsePackageParts_ok t0 t1 t2 P A V HP HA HV). now rewrite HT.
Qed.

(** X28. The round trip of the older [parseAsset], with the prefix
    [open_gapps] and the layout [20060102] fixed in the code. *)
Lemma gapps_parseAsset_roundtrip url size md5 (p x y v d : string) P A V :
  occurs "." p = false -> occurs "-" p = false ->
  occurs "." x = false -> occurs "-" x = false ->
  occurs "." y = false -> occurs "-" y = false ->
  occurs "." v = false -> occurs "-" v = false ->
  occurs "." d = false -> occurs "-" d = false ->
  gapps.PlatformString p = Ok P ->
  gapps.AndroidString (x +:+ y) = Ok A ->
  gapps.VariantString v = Ok V ->
  time_Parse W gapps.TimeFormat d = None ->
  let name :=
    "open_gapps-" +:+ p +:+ "-" +:+ x +:+ "." +:+ y +:+ "-" +:+ v +:+ "-" +:+ d +:+ ".zip" in
  gapps.parseAsset W (mkAsset name url size) md5 =
    (Some (gapps.mkPackage name d url "" md5 size P A V : GPackage), None).
Proof.
  intros Hp Hp' Hx Hx' Hy Hy' Hv Hv' Hd Hd' HP HA HV HT name.
  apply (gapps_parseAsset_accepts (mkAsset name url size) md5
           p (x +:+ y) v d (p +:+ "-" +:+ x) (y +:+ "-" +:+ v +:+ "-" +:+ d));
    try assumption.
  - simpl GetName. unfold name. rewrite TrimPrefix_app.
    rewrite <- (Split_dots (p +:+ "-" +:+ x) (y +:+ "-" +:+ v +:+ "-" +:+ d)).
    + f_equal. now rewrite !append_assoc.
    + rewrite !occurs_app, Hp, Hx. reflexivity.
    + rewrite !occurs_app, Hy, Hv, Hd. reflexivity.
  - rewrite <- (Split_dashes p (x +:+ y) v d); try assumption.
    + f_equal. now rewrite !append_assoc.
    + rewrite occurs_app, Hx', Hy'. reflexivity.
Qed.

(** X29. The request of the older [CreateMirror] goes to the fixed
    [uploadURL]; the rest is as in package [storage]. *)
Lemma gapps_CreateMirror_upload (p : GPackage) req :
  let r := gapps.CreateMirror W p in
  let p' := fst (fst r) in
  In (EvDo req) (snd r) ->
  Method req = "PUT"
  /\ URL req = fmt_Sprintf W "https://transfer.sh/%s" (gapps.Name p)
  /\ Header req = <["Max-Days" := ["7"]]> (<["Content-Type" := ["application/zip"]]> ∅)
  /\ (forall resp, http_Do W req = Ok resp ->
       (StatusCode resp = 200%Z -> forall body, Body resp = Ok body ->
          snd (fst r) = None /\ gapps.MirrorURL p' = body)
       /\ (StatusCode resp <> 200%Z ->
           snd (fst r) = Some (Errorf ("unable to make upload request: " +:+ Status resp))
           /\ gapps.MirrorURL p' = gapps.MirrorURL p)).
Proof.
  run_body.
  repeat next_answer;
    cbn [gapps.withMirrorURL gapps.MirrorURL gapps.Name In] in *;
    intros Hin;
    repeat (destruct Hin as [Hin|Hin]; [try discriminate Hin|]); try contradiction;
    injection Hin as <-;
    repeat match goal with
      | H : negb (_ =? _)%Z = false |- _ => apply negb_false_iff, Z.eqb_eq in H
      | H : negb (_ =? _)%Z = true |- _ => apply negb_true_iff, Z.eqb_neq in H
      end;
    (split; [reflexivity|]); (split; [reflexivity|]); (split; [reflexivity|]);
    match goal with
    | H : http_Do W _ = _ |- _ => intros resp Hresp; rewrite H in Hresp
    end;
    try discriminate Hresp; injection Hresp as <-;
    unfold StatusOK in *;
    (split; [intros Hcode; try contradiction; intros body Hbody
            | intros Hcode; try contradiction]);
    try (split; reflexivity); try congruence.
  all: split; [reflexivity | congruence].
Qed.

End GappsFacts.

(** ** Runs on the sample world *)

Section Runs.
Import sample.

Lemma ParsePackageParts_sample :
  gapps.ParsePackageParts ["arm64"; "110"; "pico"]
  = (PlatformArm64, Android110, VariantPico, None).
Proof. reflexivity. Qed.

Lemma parseAsset_sample :
  parseAsset config zipAsset "0123456789abcdef" = (Some package, None).
Proof. reflexivity. Qed.

Lemma getMD5_sample :
  storage.getMD5 world "https://releases.example/zip.md5"
  = ("0123456789abcdef", None,
     [EvAddSingle "https://releases.example/zip.md5"; EvOpen "/tmp/gapps-md5";
      EvReadFile (FileOf "/tmp/gapps-md5"); EvClose (FileOf "/tmp/gapps-md5")]).
Proof. reflexivity. Qed.

(** No double space: the whole content comes back, newline included. *)
Lemma first_Split_newline :
  first (Split ("0123456789abcdef" +:+ String "010" "") "  ")
  = "0123456789abcdef" +:+ String "010" "".
Proof. reflexivity. Qed.

(** A [201 Created] from the mirror is an error. *)
Lemma CreateMirror_201 :
  snd (fst (storage.CreateMirror (answering 201 "201 Created" (Ok "https://m/x"))
              config package))
  = Some (Errorf "unable to make upload request: 201 Created").
Proof. reflexivity. Qed.

(** A [200 OK] with an empty body leaves [RemoteURL] empty. *)
Lemma CreateMirror_empty_body :
  let r := storage.CreateMirror (answering 200 "200 OK" (Ok "")) config package in
  snd (fst r) = None /\ storage.RemoteURL (fst (fst r)) = "".
Proof. split; reflexivity. Qed.

Lemma parseAsset_roundtrip_witness :
  parseAsset config zipAsset "0123456789abcdef" = (Some package, None).
Proof.
  exact (parseAsset_roundtrip world config (GetBrowserDownloadURL zipAsset)
           (GetSize zipAsset) "0123456789abcdef" "arm64" "11" "0" "pico" "20230101"
           PlatformArm64 Android110 VariantPico
           eq_refl eq_refl eq_refl eq_refl eq_refl eq_refl eq_refl eq_refl eq_refl eq_refl
           eq_refl eq_refl eq_refl eq_refl).
Defined.

(** C3 fails as it is stated.  With the enumeration that knows the token
    [110], the name built from the valid tokens has two segments and is
    rejected; with the enumeration that knows the token [11.0], the name
    built from the valid tokens is rejected because the lookup is made on
    [110]. *)
Lemma parseAsset_roundtrip_counterexample :
  (gapps.PlatformString "arm64" = Ok PlatformArm64
   /\ gapps.AndroidString "110" = Ok Android110
   /\ gapps.VariantString "pico" = Ok VariantPico
   /\ time_Parse world (GetString config "gapps.time_format") "20230101" = None
   /\ plainName = "open_gapps" +:+ "-" +:+ "arm64" +:+ "-" +:+ "110" +:+ "-" +:+ "pico"
                  +:+ "-" +:+ "20230101" +:+ ".zip"
   /\ parseAsset config (mkAsset plainName "https://releases.example/a.zip" 1) "md5"
      = (None, Some (Errorf "incorrect package name: open_gapps-arm64-110-pico-20230101.zip")))
  /\ (gapps.AndroidString (EA := Android_dotted) "11.0" = Ok Android110
      /\ zipName = "open_gapps" +:+ "-" +:+ "arm64" +:+ "-" +:+ "11.0" +:+ "-" +:+ "pico"
                   +:+ "-" +:+ "20230101" +:+ ".zip"
      /\ parseAssetDotted config zipAsset "md5"
         = (None, Some (Wrap (External "110 does not belong to Android values")
                             "parsing error"))).
Proof. repeat split; reflexivity. Qed.

Lemma parseAsset_rejects_witness :
  let asset := mkAsset "open_gapps-arm64-11.0-pico-20230101.rar" "" 1 in
  List.last (Split (TrimPrefix (GetName asset) "open_gapps-") ".") "" <> "zip"
  /\ parseAsset config asset "md5"
     = (None, Some (Errorf "incorrect package extension: rar")).
Proof.
  split; [vm_compute; discriminate|].
  destruct (parseAsset_rejects (Platform := Platform) (Android := Android)
              (Variant := Variant) world config
              (mkAsset "open_gapps-arm64-11.0-pico-20230101.rar" "" 1) "md5")
    as (err & Hrun & _ & _ & Hext & _).
  - right; left. vm_compute. discriminate.
  - rewrite (Hext eq_refl) in Hrun; [exact Hrun | vm_compute; discriminate].
Defined.

Lemma CreateMirror_sample :
  storage.CreateMirror world config package
  = (storage.withRemoteURL "https://mirror.example/abc/file.zip"
       (storage.withLocalURL
          "https://local.example/arm64/20230101/open_gapps-arm64-11.0-pico-20230101.zip"
          package),
     None,
     [EvAddMultiple (storage.OriginURL package) "0123456789abcdef" 20 104857600;
      EvMkdirAll "/data/arm64/20230101" 493;
      EvRename "/tmp/gapps-zip"
        "/data/arm64/20230101/open_gapps-arm64-11.0-pico-20230101.zip";
      EvChmod "/data/arm64/20230101/open_gapps-arm64-11.0-pico-20230101.zip" 493;
      EvSetLocalURL
        "https://local.example/arm64/20230101/open_gapps-arm64-11.0-pico-20230101.zip";
      EvOpen "/data/arm64/20230101/open_gapps-arm64-11.0-pico-20230101.zip";
      EvDo request;
      EvReadBody;
      EvSetRemoteURL "https://mirror.example/abc/file.zip";
      EvCloseBody;
      EvClose (FileOf "/data/arm64/20230101/open_gapps-arm64-11.0-pico-20230101.zip")]).
Proof. reflexivity. Qed.

(** C1 fails as it is stated, in both directions.  With no tier
    configured the call does not return at once: the file is downloaded,
    and removed again.  With both tiers configured and only [LocalURL]
    there, the call returns at once and nothing is uploaded. *)
Lemma CreateMirror_guard_counterexample :
  (storage.specMirrored ∅ package
   /\ storage.CreateMirror world ∅ package
      = (package, None,
         [EvAddMultiple (storage.OriginURL package) "0123456789abcdef" 20 104857600;
          EvRemove "/tmp/gapps-zip"]))
  /\ (~ storage.specMirrored config (storage.withLocalURL "https://local.example/f" package)
      /\ storage.CreateMirror world config
           (storage.withLocalURL "https://local.example/f" package)
         = (storage.withLocalURL "https://local.example/f" package, None, [])).
Proof.
  split; split; try reflexivity.
  - left. split; reflexivity.
  - intros [[H _]|[_ H]].
    + vm_compute in H. discriminate H.
    + apply H; [vm_compute; discriminate | reflexivity].
Qed.

(** C2 fails as it is stated: with [gapps.local_url] set and
    [gapps.local_path] not, the call goes past the guard and returns nil,
    and [LocalURL] is still empty. *)
Lemma CreateMirror_success_counterexample :
  storage.mirrored configURLOnly package = false
  /\ GetString configURLOnly "gapps.local_url" = "https://local.example/%s"
  /\ GetString configURLOnly "gapps.local_path" = ""
  /\ storage.CreateMirror world configURLOnly package
     = (package, None,
        [EvAddMultiple (storage.OriginURL package) "0123456789abcdef" 20 104857600;
         EvRemove "/tmp/gapps-zip"])
  /\ storage.LocalURL package = "".
Proof. repeat split; reflexivity. Qed.

Lemma CreateMirror_success_witness :
  storage.mirrored config package = false
  /\ snd (fst (storage.CreateMirror world config package)) = None
  /\ storage.LocalURL (fst (fst (storage.CreateMirror world config package)))
     = fmt_Sprintf world "https://local.example/%s"
         "arm64/20230101/open_gapps-arm64-11.0-pico-20230101.zip"
  /\ exists req resp,
       In (EvDo req) (snd (storage.CreateMirror world config package))
       /\ http_Do world req = Ok resp
       /\ StatusCode resp = 200%Z
       /\ Body resp
          = Ok (storage.RemoteURL (fst (fst (storage.CreateMirror world config package)))).
Proof.
  assert (storage.mirrored config package = false) as Hg by (vm_compute; reflexivity).
  assert (GetString config "gapps.local_path" <> "") as Hpath
    by (vm_compute; discriminate).
  assert (GetString config "gapps.local_url" <> "") as Hurl
    by (vm_compute; discriminate).
  assert (GetString config "gapps.remote_url" <> "") as Hrem
    by (vm_compute; discriminate).
  pose proof (CreateMirror_success world config package _ _ Hg CreateMirror_sample)
    as (Hlocal & _ & Hremote & _).
  rewrite CreateMirror_sample. cbn [fst snd].
  split; [exact Hg|]. split; [reflexivity|]. split.
  - exact (Hlocal Hpath Hurl).
  - exact (Hremote Hrem).
Defined.

Lemma CreateMirror_upload_witness :
  In (EvDo request) (snd (storage.CreateMirror world config package))
  /\ snd (fst (storage.CreateMirror world config package)) = None
  /\ storage.RemoteURL (fst (fst (storage.CreateMirror world config package)))
     = "https://mirror.example/abc/file.zip".
Proof.
  assert (In (EvDo request) (snd (storage.CreateMirror world config package))) as Hin
    by (rewrite CreateMirror_sample; cbn [snd In]; tauto).
  split; [exact Hin|].
  pose proof (CreateMirror_upload world config package request Hin)
    as (_ & _ & _ & _ & Hresp).
  pose proof (Hresp (mkResponse 200 "200 OK" (Ok "https://mirror.example/abc/file.zip"))
                eq_refl) as [Hok _].
  exact (Hok eq_refl "https://mirror.example/abc/file.zip" eq_refl).
Defined.

Lemma move_places_witness :
  storage.move world "/tmp/gapps-zip" "/data/" (mkSt package [] [])
  = (mkSt package
       [EvMkdirAll "/data/arm64/20230101" 493;
        EvRename "/tmp/gapps-zip"
          "/data/arm64/20230101/open_gapps-arm64-11.0-pico-20230101.zip";
        EvChmod "/data/arm64/20230101/open_gapps-arm64-11.0-pico-20230101.zip" 493]
       [],
     Ok "/data/arm64/20230101/open_gapps-arm64-11.0-pico-20230101.zip").
Proof.
  exact (proj1 (move_places world "/tmp/gapps-zip" "/data/" (mkSt package [] [])
                  eq_refl eq_refl eq_refl)).
Defined.

Lemma CreateMirror_download_witness :
  storage.mirrored config package = false
  /\ storage.CreateMirror offline config package
     = (package, Some (Wrap (External "connection refused") "unable to read file body"),
        [EvAddMultiple (storage.OriginURL package) "0123456789abcdef" 20 104857600]).
Proof.
  split; [reflexivity|].
  exact (proj2 (CreateMirror_download offline config package eq_refl)
           (External "connection refused") eq_refl).
Defined.

Lemma getMD5_cut_witness :
  exists md5,
    storage.getMD5 world "https://releases.example/zip.md5"
    = (md5, None,
       [EvAddSingle "https://releases.example/zip.md5"; EvOpen "/tmp/gapps-md5";
        EvReadFile (FileOf "/tmp/gapps-md5"); EvClose (FileOf "/tmp/gapps-md5")])
    /\ cutBefore "  " "0123456789abcdef  open_gapps.zip" md5.
Proof.
  exact (getMD5_cut world "https://releases.example/zip.md5" "/tmp/gapps-md5"
           (FileOf "/tmp/gapps-md5") "0123456789abcdef  open_gapps.zip"
           eq_refl eq_refl eq_refl).
Defined.

End Runs.


(** * Further properties of the code *)

(** ** Parsing *)

Section MoreParseFacts.
Context {Platform Android Variant : Type}.
Context `{EP : Enumer Platform} `{EA : Enumer Android} `{EV : Enumer Variant}.
Variable W : World.

Abbreviation SPackage := (storage.Package Platform Android Variant).
Abbreviation sParseAsset :=
  (storage.parseAsset (Platform := Platform) (Android := Android) (Variant := Variant) W).
Abbreviation gParseAsset :=
  (gapps.parseAsset (Platform := Platform) (Android := Android) (Variant := Variant) W).
Abbreviation ParsePackageParts' :=
  (gapps.ParsePackageParts (Platform := Platform) (Android := Android) (Variant := Variant)).
Abbreviation PlatformString' := (gapps.PlatformString (Platform := Platform)).
Abbreviation AndroidString' := (gapps.AndroidString (Android := Android)).
Abbreviation VariantString' := (gapps.VariantString (Variant := Variant)).

(** X1. A package that [parseAsset] returns comes with a nil error, and
    every check has passed for it: the name without the prefix has the
    three segments [a], [b], "zip"; [a ++ b] has four tokens; the first
    three are known to the enumerations and give [Platform], [Android] and
    [Variant]; the fourth is [Date] and parses under the configured layout.
    [Name], [OriginURL], [Size] and [MD5] are those handed in, and
    [LocalURL] and [RemoteURL] are empty. *)
Theorem parseAsset_sound cfg asset md5 (p : SPackage) err :
  sParseAsset cfg asset md5 = (Some p, err) ->
  err = None
  /\ storage.Name p = GetName asset
  /\ storage.OriginURL p = GetBrowserDownloadURL asset
  /\ storage.Size p = GetSize asset
  /\ storage.MD5 p = md5
  /\ storage.LocalURL p = "" /\ storage.RemoteURL p = ""
  /\ exists a b t0 t1 t2,
       Split (TrimPrefix (GetName asset) (GetString cfg "gapps.prefix" +:+ "-")) "."
         = [a; b; "zip"]
       /\ Split (a +:+ b) "-" = [t0; t1; t2; storage.Date p]
       /\ PlatformString' t0 = Ok (storage.Platform_ p)
       /\ AndroidString' t1 = Ok (storage.Android_ p)
       /\ VariantString' t2 = Ok (storage.Variant_ p)
       /\ time_Parse W (GetString cfg "gapps.time_format") (storage.Date p) = None.
Proof.
  unfold storage.parseAsset, storage.gappsSeparator.
  set (parts := Split _ ".").
  destruct (Nat.eqb_spec (length parts) 3) as [Hlen|Hlen];
    cbn [negb]; [|intros H; discriminate H].
  destruct parts as [|a [|b [|c [|]]]] eqn:Eparts; try discriminate Hlen.
  change (idx [a; b; c] 0) with a. change (idx [a; b; c] 1) with b.
  change (idx [a; b; c] 2) with c.
  destruct (String.eqb_spec c "zip") as [->|Hzip];
    cbn [negb]; [|intros H; discriminate H].
  set (tokens := Split (a +:+ b) "-").
  destruct (Nat.eqb_spec (length tokens) 4) as [Htok|Htok];
    cbn [negb]; [|intros H; discriminate H].
  destruct tokens as [|t0 [|t1 [|t2 [|t3 [|]]]]] eqn:Etok; try discriminate Htok.
  unfold gapps.ParsePackageParts, idx. simpl.
  destruct (gapps.PlatformString t0) as [P|e] eqn:HP; [|intros H; discriminate H].
  destruct (gapps.AndroidString t1) as [A|e] eqn:HA; [|intros H; discriminate H].
  destruct (gapps.VariantString t2) as [V|e] eqn:HV; [|intros H; discriminate H].
  destruct (time_Parse W (GetString cfg "gapps.time_format") t3) eqn:HT;
    [intros H; discriminate H|].
  intros [= <- <-]. simpl.
  repeat (split; [reflexivity|]).
  exists a, b, t0, t1, t2. repeat split; assumption.
Qed.

(** X2. The prefix is not required.  A name [platform-X.Y-variant-date.zip]
    that does not start with the configured prefix and separator is parsed
    as it stands, to the same values as a name that has the prefix. *)
Theorem parseAsset_prefix_optional cfg url size md5 (p x y v d : string) P A V :
  occurs "." p = false -> occurs "-" p = false ->
  occurs "." x = false -> occurs "-" x = false ->
  occurs "." y = false -> occurs "-" y = false ->
  occurs "." v = false -> occurs "-" v = false ->
  occurs "." d = false -> occurs "-" d = false ->
  PlatformString' p = Ok P ->
  AndroidString' (x +:+ y) = Ok A ->
  VariantString' v = Ok V ->
  time_Parse W (GetString cfg "gapps.time_format") d = None ->
  let name := p +:+ "-" +:+ x +:+ "." +:+ y +:+ "-" +:+ v +:+ "-" +:+ d +:+ ".zip" in
  HasPrefix name (GetString cfg "gapps.prefix" +:+ "-") = false ->
  sParseAsset cfg (mkAsset name url size) md5 =
    (Some (storage.mkPackage name d url "" "" md5 size P A V), None).
Proof.
  intros Hp Hp' Hx Hx' Hy Hy' Hv Hv' Hd Hd' HP HA HV HT name Hpre.
  apply (parseAsset_accepts W cfg (mkAsset name url size) md5
           p (x +:+ y) v d (p +:+ "-" +:+ x) (y +:+ "-" +:+ v +:+ "-" +:+ d));
    try assumption.
  - simpl GetName. unfold TrimPrefix. rewrite Hpre. unfold name.
    rewrite <- (Split_dots (p +:+ "-" +:+ x) (y +:+ "-" +:+ v +:+ "-" +:+ d)).
    + f_equal. now rewrite !append_assoc.
    + rewrite !occurs_app, Hp, Hx. reflexivity.
    + rewrite !occurs_app, Hy, Hv, Hd. reflexivity.
  - rewrite <- (Split_dashes p (x +:+ y) v d); try assumption.
    + f_equal. now rewrite !append_assoc.
    + rewrite occurs_app, Hx', Hy'. reflexivity.
Qed.

(** X4. [ParsePackageParts] gives all three values or none: either the
    slice has three elements, all three lookups succeed and their values
    come back with a nil error, or the three zero values come back with an
    error; a value that was parsed before a later lookup failed is not
    returned. *)
Theorem ParsePackageParts_all_or_nothing (args : list string) :
  (exists a0 a1 a2 (P : Platform) (A : Android) (V : Variant),
      args = [a0; a1; a2]
      /\ PlatformString' a0 = Ok P
      /\ AndroidString' a1 = Ok A
      /\ VariantString' a2 = Ok V
      /\ ParsePackageParts' args = (P, A, V, None))
  \/ (exists err, ParsePackageParts' args = (zero, zero, zero, Some err)).
Proof.
  unfold gapps.ParsePackageParts.
  destruct (Nat.eqb_spec (length args) 3) as [Hlen|Hlen]; cbn [negb]; [|eauto].
  destruct args as [|a0 [|a1 [|a2 [|]]]]; try discriminate Hlen.
  unfold idx. simpl.
  destruct (gapps.PlatformString a0) as [P|e] eqn:HP; [|eauto].
  destruct (gapps.AndroidString a1) as [A|e] eqn:HA; [|eauto].
  destruct (gapps.VariantString a2) as [V|e] eqn:HV; [|eauto].
  left. exists a0, a1, a2, P, A, V. auto.
Qed.

End MoreParseFacts.

(** ** Checksum files *)

Section MoreStrings.

Lemma string_take_app (h r : string) : string_take (String.length h) (h +:+ r) = h.
Proof.
  induction h as [|c h IH]; [now destruct r|].
  rewrite append_cons. simpl. now rewrite IH.
Qed.

Lemma HasPrefix_take (m : nat) (s : string) : HasPrefix s (string_take m s) = true.
Proof.
  unfold HasPrefix. revert m. induction s as [|c s IH]; intros [|m]; simpl; try reflexivity.
  destruct (ascii_dec c c); [apply IH | congruence].
Qed.

Lemma HasPrefix_of_take (m : nat) (s sep : string) :
  HasPrefix (string_take m s) sep = true -> HasPrefix s sep = true.
Proof.
  unfold HasPrefix. revert m s.
  induction sep as [|x sep IH]; intros m s H; [now destruct s|].
  destruct s as [|c s]; [now destruct m|].
  destruct m as [|m]; [discriminate H|].
  simpl in *. destruct (ascii_dec x c); [now apply (IH m) | discriminate H].
Qed.

Lemma string_take_empty (k : nat) : string_take k "" = "".
Proof. now destruct k. Qed.

Lemma string_drop_take (j m : nat) (s : string) :
  string_drop j (string_take m s) = string_take (m - j) (string_drop j s).
Proof.
  revert m s. induction j as [|j IH]; intros m s.
  - now rewrite Nat.sub_0_r.
  - destruct s as [|c s].
    + now rewrite string_drop_empty, !string_take_empty, string_drop_empty.
    + destruct m as [|m]; [reflexivity|]. simpl. apply IH.
Qed.

(** The piece before the first occurrence holds no occurrence. *)
Lemma take_Index_clean (s sep : string) (m : nat) :
  sep <> "" -> Index s sep = Some m ->
  forall j, ~ occursAt sep (string_take m s) j.
Proof.
  intros Hsep Hidx j Hocc. destruct (Index_Some s sep m Hidx) as [_ Hmin].
  unfold occursAt in Hocc. rewrite string_drop_take in Hocc.
  destruct (Nat.lt_ge_cases j m) as [Hlt|Hge].
  - apply (Hmin j Hlt). unfold occursAt. now apply (HasPrefix_of_take (m - j)).
  - replace (m - j)%nat with O in Hocc by lia.
    cbn [string_take] in Hocc. now rewrite HasPrefix_empty in Hocc.
Qed.

Lemma first_Split_clean (s sep : string) :
  sep <> "" -> forall j, ~ occursAt sep (first (Split s sep)) j.
Proof.
  intros Hsep j. rewrite (first_Split s sep Hsep).
  destruct (Index s sep) as [m|] eqn:E.
  - now apply take_Index_clean.
  - intros Hocc. apply (Index_None s sep E j); [|exact Hocc].
    now apply (occursAt_length sep).
Qed.

Lemma first_Split_prefix (s sep : string) :
  sep <> "" -> HasPrefix s (first (Split s sep)) = true.
Proof.
  intros Hsep. rewrite (first_Split s sep Hsep).
  destruct (Index s sep) as [m|]; [apply HasPrefix_take|].
  rewrite <- (append_empty_r s) at 1. apply HasPrefix_app.
Qed.

(** A field free of spaces, then two spaces: the cut is the field. *)
Lemma first_Split_field (h rest : string) :
  occurs " " h = false -> first (Split (h +:+ "  " +:+ rest) "  ") = h.
Proof.
  intros Hh. rewrite first_Split by discriminate.
  assert (Index (h +:+ "  " +:+ rest) "  " = Some (String.length h)) as ->.
  { induction h as [|c h IH]; rewrite Index_eq.
    - rewrite append_empty_l. now rewrite HasPrefix_app.
    - rewrite append_cons. cbn [occurs] in Hh.
      destruct (ascii_dec " " c) as [Hc|Hc] eqn:E; [discriminate Hh|].
      assert (HasPrefix (String c (h +:+ "  " +:+ rest)) "  " = false) as ->
        by (unfold HasPrefix; cbn [String.prefix]; now rewrite E).
      now rewrite (IH Hh). }
  apply string_take_app.
Qed.

End MoreStrings.

Section MoreMD5Facts.
Context {Platform Android Variant : Type}.
Context `{EP : Enumer Platform} `{EA : Enumer Android} `{EV : Enumer Variant}.
Variable W : World.

Abbreviation SPackage' := (storage.Package Platform Android Variant).
Abbreviation sParseAsset' :=
  (storage.parseAsset (Platform := Platform) (Android := Android) (Variant := Variant) W).
Abbreviation sFormPackage :=
  (storage.formPackage (Platform := Platform) (Android := Android) (Variant := Variant) W).

(** X5. For a checksum file of the usual form, a field free of spaces, two
    spaces, then the file name, [getMD5] returns the field. *)
Theorem getMD5_field url filePath file (h rest : string) :
  dq_AddSingle W url = Ok filePath ->
  os_Open W (filepath_Clean W filePath) = Ok file ->
  ioutil_ReadAll W file = Ok (h +:+ "  " +:+ rest) ->
  occurs " " h = false ->
  storage.getMD5 W url =
    (h, None,
     [EvAddSingle url; EvOpen (filepath_Clean W filePath); EvReadFile file; EvClose file]).
Proof.
  intros Hdl Hopen Hread Hh. run_body. rewrite Hdl, Hopen, Hread.
  now rewrite (first_Split_field h rest Hh).
Qed.

(** X6. The older [getMD5] asks for the file with one attempt and no
    expected size; for a checksum file of the usual form it returns the
    field, and a failed download comes back as it is, with an empty
    string. *)
Theorem gapps_getMD5_field url :
  (forall h rest, utils_Download W url 1 0 = Ok (h +:+ "  " +:+ rest) ->
                  occurs " " h = false -> gapps.getMD5 W url = (h, None))
  /\ (forall err, utils_Download W url 1 0 = Err err ->
                  gapps.getMD5 W url = ("", Some err)).
Proof.
  unfold gapps.getMD5. split.
  - intros h rest -> Hh. now rewrite (first_Split_field h rest Hh).
  - now intros err ->.
Qed.

(** X7. When [getMD5] fails the string it returns is empty, and the error
    is the error of the call that failed under the message of that call:
    the download under "unable to download MD5 file", the open under
    "unable to open MD5 file", the read under "unable to read MD5 file". *)
Theorem getMD5_failure url :
  let r := storage.getMD5 W url in
  snd (fst r) <> None ->
  fst (fst r) = ""
  /\ ((exists e,
         dq_AddSingle W url = Err e
         /\ snd (fst r) = Some (Wrap e "unable to download MD5 file"))
      \/ (exists filePath e,
            dq_AddSingle W url = Ok filePath
            /\ os_Open W (filepath_Clean W filePath) = Err e
            /\ snd (fst r) = Some (Wrap e "unable to open MD5 file"))
      \/ (exists filePath file e,
            dq_AddSingle W url = Ok filePath
            /\ os_Open W (filepath_Clean W filePath) = Ok file
            /\ ioutil_ReadAll W file = Err e
            /\ snd (fst r) = Some (Wrap e "unable to read MD5 file"))).
Proof.
  run_body. repeat next_answer; intros Herr; try congruence;
    (split; [reflexivity|]);
    first
      [ left; eexists; split; reflexivity
      | right; left; do 2 eexists;
        split; [reflexivity | split; [eassumption | reflexivity]]
      | right; right; do 3 eexists;
        split; [reflexivity | split; [eassumption | split; [eassumption | reflexivity]]] ].
Qed.

(** X8. Whatever the outcome, [getMD5] starts with the download of the
    URL, closes the file it has opened, also when the read fails, and
    never removes the downloaded file. *)
Theorem getMD5_trace url :
  let t := snd (storage.getMD5 W url) in
  (exists t', t = EvAddSingle url :: t')
  /\ (forall path f, In (EvOpen path) t -> os_Open W path = Ok f -> In (EvClose f) t)
  /\ times isRemove t = 0%nat.
Proof.
  run_body. repeat next_answer; cbn [snd]; (split; [eexists; reflexivity|]);
    (split; [|reflexivity]); intros path f Hin Hopen; cbn [In] in *;
    repeat (destruct Hin as [Hin|Hin]; [try discriminate Hin|]); try contradiction;
    injection Hin as <-; try congruence;
    match goal with
    | H : os_Open W _ = Ok _ |- _ => rewrite H in Hopen; injection Hopen as <-
    end; tauto.
Qed.

(** X9. A checksum that [getMD5] returns with a nil error is a prefix of
    what was read from the file, and holds no two consecutive spaces. *)
Theorem getMD5_result url md5 t :
  storage.getMD5 W url = (md5, None, t) ->
  (forall j, ~ occursAt "  " md5 j)
  /\ exists filePath file content,
       dq_AddSingle W url = Ok filePath
       /\ os_Open W (filepath_Clean W filePath) = Ok file
       /\ ioutil_ReadAll W file = Ok content
       /\ HasPrefix content md5 = true.
Proof.
  run_body. repeat next_answer; intros H; try discriminate H.
  injection H as <- <-. split.
  - apply first_Split_clean. discriminate.
  - do 3 eexists. repeat split; try eassumption.
    apply first_Split_prefix. discriminate.
Qed.

End MoreMD5Facts.

(** ** [formPackage] *)

Section FormPackageFacts.
Context {Platform Android Variant : Type}.
Context `{EP : Enumer Platform} `{EA : Enumer Android} `{EV : Enumer Variant}.
Variable W : World.

Abbreviation FPackage := (storage.Package Platform Android Variant).
Abbreviation fParseAsset :=
  (storage.parseAsset (Platform := Platform) (Android := Android) (Variant := Variant) W).
Abbreviation fFormPackage :=
  (storage.formPackage (Platform := Platform) (Android := Android) (Variant := Variant) W).

(** A package from [parseAsset] carries what was handed in and no mirror
    URL yet. *)
Lemma parseAsset_fresh cfg asset md5 (p : FPackage) err :
  fParseAsset cfg asset md5 = (Some p, err) ->
  err = None
  /\ storage.Name p = GetName asset
  /\ storage.OriginURL p = GetBrowserDownloadURL asset
  /\ storage.Size p = GetSize asset
  /\ storage.MD5 p = md5
  /\ storage.LocalURL p = "" /\ storage.RemoteURL p = "".
Proof.
  unfold storage.parseAsset.
  destruct (negb (length _ =? 3)%nat); [intros H; discriminate H|].
  destruct (negb (String.eqb _ "zip")); [intros H; discriminate H|].
  destruct (negb (length _ =? 4)%nat); [intros H; discriminate H|].
  destruct (gapps.ParsePackageParts _) as [[[P A] V] [e|]]; [intros H; discriminate H|].
  destruct (time_Parse W _ _); [intros H; discriminate H|].
  intros [= <- <-]. repeat split; reflexivity.
Qed.

(** An error from [parseAsset] comes with no package and has one of the
    four shapes. *)
Lemma parseAsset_error_shape cfg asset md5 (o : option FPackage) err :
  fParseAsset cfg asset md5 = (o, Some err) ->
  o = None /\ exists ext, parseError (GetName asset) ext err.
Proof.
  unfold storage.parseAsset, storage.gappsSeparator.
  set (parts := Split _ ".").
  destruct (Nat.eqb_spec (length parts) 3) as [Hlen|Hlen]; cbn [negb];
    [|intros [= <- <-]; split; [reflexivity | exists ""; constructor]].
  destruct (negb (String.eqb _ "zip"));
    [intros [= <- <-]; split; [reflexivity | eexists; constructor]|].
  set (tokens := Split _ "-").
  destruct (Nat.eqb_spec (length tokens) 4) as [Htok|Htok]; cbn [negb];
    [|intros [= <- <-]; split; [reflexivity | exists ""; constructor]].
  destruct tokens as [|t0 [|t1 [|t2 [|t3 [|]]]]]; try discriminate Htok.
  unfold gapps.ParsePackageParts, idx. simpl.
  destruct (gapps.PlatformString t0);
    [|intros [= <- <-]; split; [reflexivity | exists ""; constructor]].
  destruct (gapps.AndroidString t1);
    [|intros [= <- <-]; split; [reflexivity | exists ""; constructor]].
  destruct (gapps.VariantString t2);
    [|intros [= <- <-]; split; [reflexivity | exists ""; constructor]].
  destruct (time_Parse W _ t3); [|intros H; discriminate H].
  intros [= <- <-]. split; [reflexivity | exists ""; constructor].
Qed.

(** X10. A package that [formPackage] returns comes with a nil error; it
    is what [parseAsset] makes of the zip asset and the checksum that
    [getMD5] read for the checksum asset; the checksum holds no two
    consecutive spaces; and no configuration takes the package as
    mirrored. *)
Theorem formPackage_success cfg zipAsset md5Asset (p : FPackage) err :
  fFormPackage cfg zipAsset md5Asset = (Some p, err) ->
  err = None
  /\ fst (storage.getMD5 W (GetBrowserDownloadURL md5Asset)) = (storage.MD5 p, None)
  /\ fParseAsset cfg zipAsset (storage.MD5 p) = (Some p, None)
  /\ (forall j, ~ occursAt "  " (storage.MD5 p) j)
  /\ (forall cfg', storage.mirrored cfg' p = false).
Proof.
  unfold storage.formPackage.
  destruct (storage.getMD5 W (GetBrowserDownloadURL md5Asset)) as [[md5 [e|]] t] eqn:Hmd5;
    [intros H; discriminate H|].
  destruct (fParseAsset cfg zipAsset md5) as [o [e|]] eqn:Hparse;
    [intros H; discriminate H|].
  intros [= -> <-].
  destruct (parseAsset_fresh cfg zipAsset md5 p None Hparse)
    as (_ & _ & _ & _ & Hsum & Hlocal & Hremote).
  rewrite Hsum. repeat split; try assumption; try reflexivity.
  - revert Hmd5. run_body. repeat next_answer; intros H; try discriminate H.
    injection H as <- _. apply first_Split_clean. discriminate.
  - intros cfg'. unfold storage.mirrored. rewrite Hlocal, Hremote.
    cbn [nonEmpty]. now rewrite !andb_false_r.
Qed.

(** X11. When [formPackage] fails it returns no package.  A failure of
    [getMD5] is reported as "unable to download md5" over the step that
    failed, whatever the zip asset is called; otherwise the failure is
    the one of [parseAsset], reported as "unable to create package". *)
Theorem formPackage_failure cfg zipAsset md5Asset (o : option FPackage) err :
  fFormPackage cfg zipAsset md5Asset = (o, Some err) ->
  o = None
  /\ ((exists cause step,
         md5Step step
         /\ snd (fst (storage.getMD5 W (GetBrowserDownloadURL md5Asset)))
            = Some (Wrap cause step)
         /\ err = Wrap (Wrap cause step) "unable to download md5")
      \/ (exists md5 cause ext,
            fst (storage.getMD5 W (GetBrowserDownloadURL md5Asset)) = (md5, None)
            /\ fParseAsset cfg zipAsset md5 = (None, Some cause)
            /\ parseError (GetName zipAsset) ext cause
            /\ err = Wrap cause "unable to create package")).
Proof.
  unfold storage.formPackage.
  destruct (storage.getMD5 W (GetBrowserDownloadURL md5Asset)) as [[md5 [e|]] t] eqn:Hmd5.
  - intros [= <- <-]. split; [reflexivity|]. left.
    revert Hmd5. run_body.
    repeat next_answer; intros H; try discriminate H; injection H as _ <- _;
      do 2 eexists; (split; [|split; reflexivity]); constructor.
  - destruct (fParseAsset cfg zipAsset md5) as [o' [e|]] eqn:Hparse;
      [|intros H; discriminate H].
    intros [= <- <-].
    destruct (parseAsset_error_shape cfg zipAsset md5 o' e Hparse) as [-> [ext Hext]].
    split; [reflexivity|]. right. exists md5, e, ext. auto.
Qed.

(** X12. A package just formed is never skipped: whatever the
    configuration, the first [CreateMirror] on it starts by asking the
    download queue for the URL of the zip asset, with the checksum read
    from the checksum asset, 20 retries and the size of the zip asset. *)
Theorem formPackage_then_CreateMirror cfg cfg' zipAsset md5Asset (p : FPackage) err :
  fFormPackage cfg zipAsset md5Asset = (Some p, err) ->
  exists md5 t,
    fst (storage.getMD5 W (GetBrowserDownloadURL md5Asset)) = (md5, None)
    /\ snd (storage.CreateMirror W cfg' p)
       = EvAddMultiple (GetBrowserDownloadURL zipAsset) md5 20 (GetSize zipAsset) :: t.
Proof.
  unfold storage.formPackage.
  destruct (storage.getMD5 W (GetBrowserDownloadURL md5Asset)) as [[md5 [e|]] t0] eqn:Hmd5;
    [intros H; discriminate H|].
  destruct (fParseAsset cfg zipAsset md5) as [o [e|]] eqn:Hparse;
    [intros H; discriminate H|].
  intros [= -> <-].
  destruct (parseAsset_fresh cfg zipAsset md5 p None Hparse)
    as (_ & _ & Hurl & Hsize & Hsum & Hlocal & Hremote).
  assert (storage.mirrored cfg' p = false) as Hg.
  { unfold storage.mirrored. rewrite Hlocal, Hremote.
    cbn [nonEmpty]. now rewrite !andb_false_r. }
  destruct (CreateMirror_starts W cfg' p Hg) as (t & Ht & _).
  exists md5, t. split; [reflexivity|]. now rewrite Ht, Hurl, Hsize, Hsum.
Qed.

End FormPackageFacts.

(** ** [CreateMirror] and [move] *)

Section MoreMirrorFacts.
Context {Platform Android Variant : Type}.
Context `{EP : Enumer Platform} `{EA : Enumer Android} `{EV : Enumer Variant}.
Variable W : World.

Abbreviation MPackage := (storage.Package Platform Android Variant).

(** X13. Every error [CreateMirror] returns is the error of a call that
    was made and failed, under the message of that call: the download; a
    file-system call of the move, under its own message and then "unable
    to move the file to storage"; the open; the making of the request; the
    sending; an answer with a status other than 200, with that status in
    the message; or the read of the answer. *)
Theorem CreateMirror_errors cfg (p : MPackage) err :
  snd (fst (storage.CreateMirror W cfg p)) = Some err ->
  mirrorFailure W cfg p (snd (storage.CreateMirror W cfg p)) err.
Proof.
  run_body.
  repeat next_answer;
    cbn [fst snd storage.Name storage.withLocalURL storage.withRemoteURL] in *;
    intros H; try discriminate H; injection H as <-;
    repeat match goal with
      | H : negb (_ =? _)%Z = true |- _ =>
          apply negb_true_iff, Z.eqb_neq in H; unfold StatusOK in H
      | H : negb (_ =? _)%Z = false |- _ =>
          apply negb_false_iff, Z.eqb_eq in H; unfold StatusOK in H
      end;
    first
      [ eapply FailDownload; eassumption
      | eapply FailMkdir; [cbn [In]; eauto 12 | eassumption]
      | eapply FailRename; [cbn [In]; eauto 12 | eassumption]
      | eapply FailChmod; [cbn [In]; eauto 12 | eassumption]
      | eapply FailOpen; [cbn [In]; eauto 12 | eassumption]
      | eapply FailRequest; eassumption
      | eapply FailDo; [cbn [In]; eauto 12 | eassumption]
      | eapply FailStatus; [cbn [In]; eauto 12 | eassumption | assumption]
      | eapply FailBody; [cbn [In]; eauto 12 | eassumption | assumption | eassumption] ].
Qed.

(** X14. When the move fails nothing else happens: the package is as it
    was, [LocalURL] is not written, no request is sent, and the downloaded
    file is not removed. *)
Theorem CreateMirror_move_fails cfg (p : MPackage) cause step :
  let r := storage.CreateMirror W cfg p in
  snd (fst r) = Some (Wrap (Wrap cause step) "unable to move the file to storage") ->
  fst (fst r) = p
  /\ times isSetLocalURL (snd r) = 0%nat
  /\ times isDo (snd r) = 0%nat
  /\ times isRemove (snd r) = 0%nat.
Proof.
  run_body. repeat next_answer; intros H; try discriminate H; repeat split.
Qed.

(** X15. Past the guard and after the download, the downloaded file is
    removed at the very end, whatever happens to the upload, when no
    storage path is configured; it is never removed when one is. *)
Theorem CreateMirror_cleanup cfg (p : MPackage) filePath :
  storage.mirrored cfg p = false ->
  dq_AddMultiple W (storage.OriginURL p) (storage.MD5 p) 20 (storage.Size p) = Ok filePath ->
  let t := snd (storage.CreateMirror W cfg p) in
  (GetString cfg "gapps.local_path" = "" ->
   last t = Some (EvRemove filePath) /\ times isRemove t = 1%nat)
  /\ (GetString cfg "gapps.local_path" <> "" -> times isRemove t = 0%nat).
Proof.
  intros Hg Hdl. run_body. rewrite Hg, Hdl. cbv beta iota.
  destruct (nonEmpty (GetString cfg "gapps.local_path")) eqn:Hpath.
  - apply nonEmpty_true in Hpath.
    repeat next_answer; (split; [intros Hno; contradiction | intros _; reflexivity]).
  - apply nonEmpty_false in Hpath.
    repeat next_answer; (split; [intros _; split; reflexivity | intros Hno; contradiction]).
Qed.

(** X16. Whatever the outcome, a file that [CreateMirror] has opened is
    closed, and the body of an answer that has arrived is closed. *)
Theorem CreateMirror_closes cfg (p : MPackage) :
  let t := snd (storage.CreateMirror W cfg p) in
  (forall path f, In (EvOpen path) t -> os_Open W path = Ok f -> In (EvClose f) t)
  /\ (forall req resp, In (EvDo req) t -> http_Do W req = Ok resp -> In EvCloseBody t).
Proof.
  run_body.
  repeat next_answer;
    cbn [snd In storage.Name storage.withLocalURL storage.withRemoteURL] in *;
    try match goal with H : os_Open W _ = _ |- _ => rename H into Hopened end;
    try match goal with H : http_Do W _ = _ |- _ => rename H into Hdone end;
    (split; [intros path f Hin Hopen | intros req resp Hin Hdo]);
    repeat (destruct Hin as [Hin|Hin]; [try discriminate Hin|]); try contradiction;
    injection Hin as <-;
    try (rewrite Hopened in Hopen; first [discriminate Hopen | injection Hopen as <-]);
    try (rewrite Hdone in Hdo; discriminate Hdo);
    tauto.
Qed.

(** X17. The file that is uploaded is the one at the destination of the
    move when a storage path is configured, and the downloaded one
    otherwise. *)
Theorem CreateMirror_upload_source cfg (p : MPackage) req :
  In (EvDo req) (snd (storage.CreateMirror W cfg p)) ->
  exists filePath,
    dq_AddMultiple W (storage.OriginURL p) (storage.MD5 p) 20 (storage.Size p) = Ok filePath
    /\ os_Open W
         (filepath_Clean W
            (if nonEmpty (GetString cfg "gapps.local_path")
             then ((((GetString cfg "gapps.local_path" +:+ toString (storage.Platform_ p))
                       +:+ "/") +:+ storage.Date p) +:+ "/") +:+ storage.Name p
             else filePath))
       = Ok (ReqBody req).
Proof.
  run_body.
  repeat next_answer; cbn [snd In]; intros Hin;
    repeat (destruct Hin as [Hin|Hin]; [try discriminate Hin|]); try contradiction;
    injection Hin as <-; eexists; (split; [reflexivity|]);
    cbv beta iota; cbn [ReqBody HeaderSet]; first [assumption | reflexivity].
Qed.

Lemma CreateMirror_partial_proj cfg (p : MPackage) v :
  let r := storage.CreateMirror W cfg p in
  snd (fst r) <> None ->
  In (EvSetLocalURL v) (snd r) ->
  v <> "" ->
  storage.LocalURL (fst (fst r)) = v
  /\ storage.RemoteURL (fst (fst r)) = storage.RemoteURL p
  /\ storage.mirrored cfg (fst (fst r)) = true.
Proof.
  run_body.
  repeat next_answer; cbn [snd fst In]; intros Herr Hin Hv; try congruence;
    repeat (destruct Hin as [Hin|Hin]; [try discriminate Hin|]); try contradiction;
    injection Hin as Hin; subst v;
    (split; [reflexivity|]); (split; [reflexivity|]);
    unfold storage.mirrored; cbn [storage.LocalURL storage.withLocalURL];
    match goal with
    | H : nonEmpty (GetString cfg "gapps.local_url") = true |- _ => rewrite H
    end;
    apply nonEmpty_true in Hv; rewrite Hv; reflexivity.
Qed.

(** X18. When the call fails after [LocalURL] was set to a string that is
    not empty, which is a failure of the upload, the package keeps that
    [LocalURL], [RemoteURL] is as it was, and calling [CreateMirror] again
    returns at once: the upload is not tried again. *)
Theorem CreateMirror_retry_after_upload_failure cfg (p p' : MPackage) err t v :
  storage.CreateMirror W cfg p = (p', Some err, t) ->
  In (EvSetLocalURL v) t ->
  v <> "" ->
  storage.LocalURL p' = v
  /\ storage.RemoteURL p' = storage.RemoteURL p
  /\ storage.CreateMirror W cfg p' = (p', None, []).
Proof.
  intros Hrun Hin Hv.
  pose proof (CreateMirror_partial_proj cfg p v) as H. cbv zeta in H.
  rewrite Hrun in H. cbn [fst snd] in H.
  destruct (H ltac:(discriminate) Hin Hv) as (Hl & Hr & Hg).
  repeat split; try assumption.
  unfold storage.CreateMirror. now rewrite Hg.
Qed.

(** X19. With [gapps.remote_url] set and a mirror that never answers 200
    with an empty body, a call that returned nil makes the next call on
    the resulting package return at once, with no download and no
    upload. *)
Theorem CreateMirror_idempotent cfg (p p' : MPackage) t :
  GetString cfg "gapps.remote_url" <> "" ->
  (forall req resp, http_Do W req = Ok resp -> StatusCode resp = 200%Z ->
                    Body resp <> Ok "") ->
  storage.CreateMirror W cfg p = (p', None, t) ->
  storage.CreateMirror W cfg p' = (p', None, []).
Proof.
  intros Hremote Hbody Hrun.
  destruct (storage.mirrored cfg p) eqn:Hg.
  - unfold storage.CreateMirror in Hrun. rewrite Hg in Hrun.
    injection Hrun as <- <-. unfold storage.CreateMirror. now rewrite Hg.
  - pose proof (CreateMirror_success_proj W cfg p Hg) as H. cbv zeta in H.
    rewrite Hrun in H. cbn [fst snd] in H.
    destruct (H eq_refl) as (_ & _ & Hup & _).
    destruct (Hup Hremote) as (req & resp & _ & Hdo & Hcode & Hb).
    assert (storage.mirrored cfg p' = true) as Hg'.
    { apply mirrored_spec. right. split; [exact Hremote|].
      intros Hempty. rewrite Hempty in Hb. exact (Hbody req resp Hdo Hcode Hb). }
    unfold storage.CreateMirror. now rewrite Hg'.
Qed.

(** X20. With neither a storage path nor a remote template configured, a
    call that goes past the guard downloads the file and removes it again:
    it returns nil when the download succeeds, and the package is as it
    was. *)
Theorem CreateMirror_nothing_to_do cfg (p : MPackage) :
  storage.mirrored cfg p = false ->
  GetString cfg "gapps.local_path" = "" ->
  GetString cfg "gapps.remote_url" = "" ->
  forall filePath,
    dq_AddMultiple W (storage.OriginURL p) (storage.MD5 p) 20 (storage.Size p) = Ok filePath ->
    storage.CreateMirror W cfg p =
      (p, None,
       [EvAddMultiple (storage.OriginURL p) (storage.MD5 p) 20 (storage.Size p);
        EvRemove filePath]).
Proof.
  intros Hg Hpath Hremote filePath Hdl. run_body.
  now rewrite Hg, Hdl, Hpath, Hremote.
Qed.

(** X21. [move] stops at the first call that fails and returns its error
    under that call's message; the package is not touched.  When it is
    the change of mode that fails, the file has already been renamed to
    the destination. *)
Theorem move_failure origin destFolder (s : St MPackage) :
  let p := pkg s in
  let dir := destFolder +:+ toString (storage.Platform_ p) +:+ "/" +:+ storage.Date p in
  let path := dir +:+ "/" +:+ storage.Name p in
  (forall e, os_MkdirAll W dir mode0755 = Some e ->
     storage.move W origin destFolder s =
       (mkSt p (trace s ++ [EvMkdirAll dir mode0755]) (defers s),
        Err (Wrap e "unable to create folder")))
  /\ (forall e, os_MkdirAll W dir mode0755 = None -> os_Rename W origin path = Some e ->
       storage.move W origin destFolder s =
         (mkSt p (trace s ++ [EvMkdirAll dir mode0755; EvRename origin path]) (defers s),
          Err (Wrap e "unable to move file")))
  /\ (forall e, os_MkdirAll W dir mode0755 = None -> os_Rename W origin path = None ->
       os_Chmod W path mode0755 = Some e ->
       storage.move W origin destFolder s =
         (mkSt p
            (trace s ++ [EvMkdirAll dir mode0755; EvRename origin path;
                         EvChmod path mode0755])
            (defers s),
          Err (Wrap e "unable to set file permissions"))).
Proof.
  destruct s as [p t d]. cbn [pkg trace defers].
  repeat split; intros e;
    cbv beta iota zeta delta
      [storage.move wrapErr call callErr getPkg mbind M_bind mret M_ret pkg trace defers];
    rewrite !append_assoc.
  - intros ->. reflexivity.
  - intros -> ->. now rewrite <- !app_assoc.
  - intros -> -> ->. now rewrite <- !app_assoc.
Qed.

End MoreMirrorFacts.

(** ** The older [CreateMirror] *)

Section MoreGappsFacts.
Context {Platform Android Variant : Type}.
Context `{EP : Enumer Platform} `{EA : Enumer Android} `{EV : Enumer Variant}.
Variable W : World.

Abbreviation OPackage := (gapps.Package Platform Android Variant).

(** X22. The older [CreateMirror] returns at once, with nothing done,
    exactly when [MirrorURL] is not empty; otherwise it starts with the
    download of [OriginURL] with 20 retries and the size of the package. *)
Theorem gapps_CreateMirror_guard (p : OPackage) :
  (gapps.MirrorURL p <> "" <-> gapps.CreateMirror W p = (p, None, []))
  /\ (gapps.MirrorURL p = "" ->
      exists t,
        snd (gapps.CreateMirror W p)
        = EvDownload (gapps.OriginURL p) 20 (gapps.Size p) :: t).
Proof.
  unfold gapps.CreateMirror.
  destruct (nonEmpty (gapps.MirrorURL p)) eqn:Hg.
  - apply nonEmpty_true in Hg. split; [tauto | contradiction].
  - apply nonEmpty_false in Hg. split.
    + split; [contradiction|]. run_body. repeat next_answer; intros H; discriminate H.
    + intros _. run_body. repeat next_answer; eexists; reflexivity.
Qed.

(** X23. Whatever the outcome of the older [CreateMirror], the fields
    other than [MirrorURL] are what they were, and [MirrorURL] is written
    at most once, and only by a call that returns nil. *)
Theorem gapps_CreateMirror_frame (p : OPackage) :
  let r := gapps.CreateMirror W p in
  gappsFields (fst (fst r)) = gappsFields p
  /\ (times isSetMirrorURL (snd r) <= 1)%nat
  /\ (snd (fst r) <> None -> fst (fst r) = p).
Proof.
  run_body. repeat next_answer; cbn; repeat split; auto; congruence.
Qed.

(** X24. Once the older [CreateMirror] has written the temporary file, it
    removes that file as the last thing it does, whether the upload
    succeeds or not. *)
Theorem gapps_CreateMirror_cleanup (p : OPackage) body tmpFileName :
  gapps.MirrorURL p = "" ->
  utils_Download W (gapps.OriginURL p) 20 (gapps.Size p) = Ok body ->
  utils_CreateFile W "" body true = Ok tmpFileName ->
  let t := snd (gapps.CreateMirror W p) in
  last t = Some (EvRemove tmpFileName) /\ times isRemove t = 1%nat.
Proof.
  intros Hg Hdl Hfile. run_body. rewrite Hg, Hdl. cbn [nonEmpty]. cbv beta iota.
  rewrite Hfile. cbv beta iota.
  repeat next_answer; split; reflexivity.
Qed.

Lemma gapps_CreateMirror_success_proj (p : OPackage) :
  let r := gapps.CreateMirror W p in
  gapps.MirrorURL p = "" ->
  snd (fst r) = None ->
  exists req resp,
    In (EvDo req) (snd r) /\ http_Do W req = Ok resp
    /\ StatusCode resp = StatusOK /\ Body resp = Ok (gapps.MirrorURL (fst (fst r))).
Proof.
  intros r Hg. subst r. run_body. rewrite Hg. cbn [nonEmpty]. cbv beta iota.
  repeat next_answer; intros Hnil; try discriminate Hnil.
  cbn [gapps.MirrorURL gapps.withMirrorURL].
  do 2 eexists. split; [simpl; eauto 12|].
  split; [eassumption|]. split; [|assumption].
  match goal with
  | H : negb (_ =? _)%Z = false |- _ => apply negb_false_iff, Z.eqb_eq in H; exact H
  end.
Qed.

(** X25. With a mirror that never answers 200 with an empty body, a call
    of the older [CreateMirror] that returned nil makes the next call on
    the resulting package return at once. *)
Theorem gapps_CreateMirror_idempotent (p p' : OPackage) t :
  (forall req resp, http_Do W req = Ok resp -> StatusCode resp = 200%Z ->
                    Body resp <> Ok "") ->
  gapps.CreateMirror W p = (p', None, t) ->
  gapps.CreateMirror W p' = (p', None, []).
Proof.
  intros Hbody Hrun.
  destruct (nonEmpty (gapps.MirrorURL p)) eqn:Hg.
  - unfold gapps.CreateMirror in Hrun. rewrite Hg in Hrun.
    injection Hrun as <- <-. unfold gapps.CreateMirror. now rewrite Hg.
  - apply nonEmpty_false in Hg.
    pose proof (gapps_CreateMirror_success_proj p) as H. cbv zeta in H.
    rewrite Hrun in H. cbn [fst snd] in H.
    destruct (H Hg eq_refl) as (req & resp & _ & Hdo & Hcode & Hb).
    assert (nonEmpty (gapps.MirrorURL p') = true) as Hg'.
    { apply nonEmpty_true. intros Hempty. rewrite Hempty in Hb.
      exact (Hbody req resp Hdo Hcode Hb). }
    unfold gapps.CreateMirror. now rewrite Hg'.
Qed.

(** A package from the older [parseAsset] carries what was handed in and
    no mirror URL yet. *)
Lemma gapps_parseAsset_fresh asset md5 (p : OPackage) err :
  gapps.parseAsset W asset md5 = (Some p, err) ->
  err = None
  /\ gapps.OriginURL p = GetBrowserDownloadURL asset
  /\ gapps.Size p = GetSize asset
  /\ gapps.MD5 p = md5
  /\ gapps.MirrorURL p = "".
Proof.
  unfold gapps.parseAsset.
  destruct (negb (length _ =? 3)%nat); [intros H; discriminate H|].
  destruct (negb (String.eqb _ "zip")); [intros H; discriminate H|].
  destruct (negb (length _ =? 4)%nat); [intros H; discriminate H|].
  destruct (gapps.ParsePackageParts _) as [[[P A] V] [e|]]; [intros H; discriminate H|].
  destruct (time_Parse W _ _); [intros H; discriminate H|].
  intros [= <- <-]. repeat split; reflexivity.
Qed.

(** X26. A package that the older [formPackage] returns comes with a nil
    error, and the older [CreateMirror] on it starts with the download of
    the URL of the zip asset, with 20 retries and the size of the zip
    asset; the checksum it carries is not handed to the download. *)
Theorem gapps_formPackage_then_CreateMirror zipAsset md5Asset (p : OPackage) err :
  gapps.formPackage W zipAsset md5Asset = (Some p, err) ->
  err = None
  /\ exists t,
       snd (gapps.CreateMirror W p)
       = EvDownload (GetBrowserDownloadURL zipAsset) 20 (GetSize zipAsset) :: t.
Proof.
  unfold gapps.formPackage.
  destruct (gapps.getMD5 W (GetBrowserDownloadURL md5Asset)) as [md5 [e|]];
    [intros H; discriminate H|].
  destruct (gapps.parseAsset W zipAsset md5) as [o [e|]] eqn:Hparse;
    [intros H; discriminate H|].
  intros [= -> <-]. split; [reflexivity|].
  destruct (gapps_parseAsset_fresh zipAsset md5 p None Hparse)
    as (_ & Hurl & Hsize & _ & Hmirror).
  rewrite <- Hurl, <- Hsize.
  clear Hparse Hurl Hsize. run_body. rewrite Hmirror. cbn [nonEmpty]. cbv beta iota.
  repeat next_answer; eexists; reflexivity.
Qed.

End MoreGappsFacts.

(** ** Further runs on the sample world and on worlds that fail *)

Section MoreRuns.
Import sample faulty.

Abbreviation formPackage' :=
  (storage.formPackage (Platform := Platform) (Android := Android) (Variant := Variant)).
Abbreviation parseAsset' :=
  (storage.parseAsset (Platform := Platform) (Android := Android) (Variant := Variant)).
Abbreviation oldParseAsset :=
  (gapps.parseAsset (Platform := Platform) (Android := Android) (Variant := Variant)).

Lemma formPackage_sample :
  formPackage' world config zipAsset md5Asset = (Some package, None).
Proof. vm_compute. reflexivity. Qed.

Lemma formPackage_offline :
  formPackage' offline config zipAsset md5Asset
  = (None,
     Some (Wrap (Wrap (External "connection refused") "unable to download MD5 file")
                "unable to download md5")).
Proof. vm_compute. reflexivity. Qed.

Lemma CreateMirror_noRename :
  storage.CreateMirror noRename config package
  = (package,
     Some (Wrap (Wrap (External "rename: permission denied") "unable to move file")
                "unable to move the file to storage"),
     [EvAddMultiple (storage.OriginURL package) "0123456789abcdef" 20 104857600;
      EvMkdirAll "/data/arm64/20230101" 493;
      EvRename "/tmp/gapps-zip"
        "/data/arm64/20230101/open_gapps-arm64-11.0-pico-20230101.zip"]).
Proof. vm_compute. reflexivity. Qed.

Lemma CreateMirror_noMirror :
  storage.CreateMirror noMirror config package
  = (storage.withLocalURL
       "https://local.example/arm64/20230101/open_gapps-arm64-11.0-pico-20230101.zip"
       package,
     Some (Wrap (External "dial tcp: connection refused") "unable to make upload request"),
     [EvAddMultiple (storage.OriginURL package) "0123456789abcdef" 20 104857600;
      EvMkdirAll "/data/arm64/20230101" 493;
      EvRename "/tmp/gapps-zip"
        "/data/arm64/20230101/open_gapps-arm64-11.0-pico-20230101.zip";
      EvChmod "/data/arm64/20230101/open_gapps-arm64-11.0-pico-20230101.zip" 493;
      EvSetLocalURL
        "https://local.example/arm64/20230101/open_gapps-arm64-11.0-pico-20230101.zip";
      EvOpen "/data/arm64/20230101/open_gapps-arm64-11.0-pico-20230101.zip";
      EvDo request;
      EvClose (FileOf "/data/arm64/20230101/open_gapps-arm64-11.0-pico-20230101.zip")]).
Proof. vm_compute. reflexivity. Qed.

Lemma CreateMirror_remoteOnly :
  storage.CreateMirror world remoteOnly package
  = (storage.withRemoteURL "https://mirror.example/abc/file.zip" package, None,
     [EvAddMultiple (storage.OriginURL package) "0123456789abcdef" 20 104857600;
      EvOpen "/tmp/gapps-zip";
      EvDo (mkRequest "PUT" "https://mirror.example/open_gapps-arm64-11.0-pico-20230101.zip"
              (<["Max-Days" := ["7"]]> (<["Content-Type" := ["application/zip"]]> ∅))
              (FileOf "/tmp/gapps-zip"));
      EvReadBody;
      EvSetRemoteURL "https://mirror.example/abc/file.zip";
      EvCloseBody;
      EvClose (FileOf "/tmp/gapps-zip");
      EvRemove "/tmp/gapps-zip"]).
Proof. vm_compute. reflexivity. Qed.

Lemma gapps_CreateMirror_sample :
  gapps.CreateMirror world oldPackage
  = (gapps.withMirrorURL "https://mirror.example/abc/file.zip" oldPackage, None,
     [EvDownload (gapps.OriginURL oldPackage) 20 104857600;
      EvCreateFile "" "0123456789abcdef  open_gapps.zip" true;
      EvOpen "/tmp/gapps-tmp";
      EvDo (mkRequest "PUT" "https://transfer.sh/open_gapps-arm64-11.0-pico-20230101.zip"
              (<["Max-Days" := ["7"]]> (<["Content-Type" := ["application/zip"]]> ∅))
              (FileOf "/tmp/gapps-tmp"));
      EvReadBody;
      EvSetMirrorURL "https://mirror.example/abc/file.zip";
      EvCloseBody;
      EvClose (FileOf "/tmp/gapps-tmp");
      EvRemove "/tmp/gapps-tmp"]).
Proof. vm_compute. reflexivity. Qed.

Lemma parseAsset_sound_witness :
  parseAsset' world config zipAsset "0123456789abcdef" = (Some package, None)
  /\ storage.LocalURL package = ""
  /\ time_Parse world (GetString config "gapps.time_format") (storage.Date package) = None.
Proof.
  split; [exact parseAsset_sample|].
  destruct (parseAsset_sound world config zipAsset "0123456789abcdef" package None
              parseAsset_sample)
    as (_ & _ & _ & _ & _ & Hlocal & _ & (a & b & t0 & t1 & t2 & _ & _ & _ & _ & _ & Hdate)).
  split; [exact Hlocal | exact Hdate].
Defined.

Lemma parseAsset_prefix_optional_witness :
  HasPrefix "arm64-11.0-pico-20230101.zip" (GetString config "gapps.prefix" +:+ "-") = false
  /\ parseAsset' world config (mkAsset "arm64-11.0-pico-20230101.zip" "u" 1) "m"
     = (Some (storage.mkPackage "arm64-11.0-pico-20230101.zip" "20230101" "u" "" "" "m" 1
                PlatformArm64 Android110 VariantPico), None).
Proof.
  assert (HasPrefix "arm64-11.0-pico-20230101.zip" (GetString config "gapps.prefix" +:+ "-")
          = false) as Hpre by (vm_compute; reflexivity).
  split; [exact Hpre|].
  exact (parseAsset_prefix_optional world config "u" 1 "m" "arm64" "11" "0" "pico" "20230101"
           PlatformArm64 Android110 VariantPico
           eq_refl eq_refl eq_refl eq_refl eq_refl eq_refl eq_refl eq_refl eq_refl eq_refl
           eq_refl eq_refl eq_refl eq_refl Hpre).
Defined.

Lemma parseAsset_dotless_witness :
  parseAsset' world config (mkAsset plainName "u" 1) "m"
  = (None, Some (Errorf ("incorrect package name: " +:+ plainName))).
Proof.
  assert (GetString config "gapps.prefix" = "open_gapps") as Hpre
    by (vm_compute; reflexivity).
  pose proof (parseAsset_dotless (Platform := Platform) (Android := Android)
                (Variant := Variant) world config "u" 1 "m" "arm64" "110" "pico" "20230101"
                eq_refl eq_refl eq_refl eq_refl) as H.
  cbv zeta in H. rewrite Hpre in H. exact H.
Defined.

Lemma gapps_parseAsset_roundtrip_witness :
  oldParseAsset world zipAsset "m"
  = (Some (gapps.mkPackage zipName "20230101" (GetBrowserDownloadURL zipAsset) "" "m"
             (GetSize zipAsset) PlatformArm64 Android110 VariantPico), None).
Proof.
  exact (gapps_parseAsset_roundtrip world (GetBrowserDownloadURL zipAsset) (GetSize zipAsset)
           "m" "arm64" "11" "0" "pico" "20230101" PlatformArm64 Android110 VariantPico
           eq_refl eq_refl eq_refl eq_refl eq_refl eq_refl eq_refl eq_refl eq_refl eq_refl
           eq_refl eq_refl eq_refl eq_refl).
Defined.

Lemma getMD5_field_witness :
  storage.getMD5 world "https://releases.example/zip.md5"
  = ("0123456789abcdef", None,
     [EvAddSingle "https://releases.example/zip.md5"; EvOpen "/tmp/gapps-md5";
      EvReadFile (FileOf "/tmp/gapps-md5"); EvClose (FileOf "/tmp/gapps-md5")]).
Proof.
  exact (getMD5_field world "https://releases.example/zip.md5" "/tmp/gapps-md5"
           (FileOf "/tmp/gapps-md5") "0123456789abcdef" "open_gapps.zip"
           eq_refl eq_refl eq_refl eq_refl).
Defined.

Lemma gapps_getMD5_field_witness :
  gapps.getMD5 world "https://releases.example/zip.md5" = ("0123456789abcdef", None)
  /\ gapps.getMD5 offline "https://releases.example/zip.md5"
     = ("", Some (External "connection refused")).
Proof.
  split.
  - exact (proj1 (gapps_getMD5_field world "https://releases.example/zip.md5")
             "0123456789abcdef" "open_gapps.zip" eq_refl eq_refl).
  - exact (proj2 (gapps_getMD5_field offline "https://releases.example/zip.md5")
             (External "connection refused") eq_refl).
Defined.

Lemma getMD5_failure_witness :
  snd (fst (storage.getMD5 noRead "https://releases.example/zip.md5")) <> None
  /\ fst (fst (storage.getMD5 noRead "https://releases.example/zip.md5")) = "".
Proof.
  assert (snd (fst (storage.getMD5 noRead "https://releases.example/zip.md5")) <> None)
    as Herr by (vm_compute; discriminate).
  split; [exact Herr|].
  exact (proj1 (getMD5_failure noRead "https://releases.example/zip.md5" Herr)).
Defined.

Lemma getMD5_result_witness :
  fst (storage.getMD5 world "https://releases.example/zip.md5") = ("0123456789abcdef", None)
  /\ forall j, ~ occursAt "  " "0123456789abcdef" j.
Proof.
  split; [now rewrite getMD5_sample|].
  exact (proj1 (getMD5_result world "https://releases.example/zip.md5" "0123456789abcdef"
                  _ getMD5_sample)).
Defined.

Lemma formPackage_success_witness :
  formPackage' world config zipAsset md5Asset = (Some package, None)
  /\ forall cfg', storage.mirrored cfg' package = false.
Proof.
  split; [exact formPackage_sample|].
  destruct (formPackage_success world config zipAsset md5Asset package None
              formPackage_sample) as (_ & _ & _ & _ & H).
  exact H.
Defined.

Lemma formPackage_failure_witness :
  formPackage' offline config zipAsset md5Asset
  = (None,
     Some (Wrap (Wrap (External "connection refused") "unable to download MD5 file")
                "unable to download md5"))
  /\ (None : option (storage.Package Platform Android Variant)) = None.
Proof.
  split; [exact formPackage_offline|].
  exact (proj1 (formPackage_failure offline config zipAsset md5Asset None _
                  formPackage_offline)).
Defined.

Lemma formPackage_then_CreateMirror_witness :
  exists md5 t,
    fst (storage.getMD5 world (GetBrowserDownloadURL md5Asset)) = (md5, None)
    /\ snd (storage.CreateMirror world remoteOnly package)
       = EvAddMultiple (GetBrowserDownloadURL zipAsset) md5 20 (GetSize zipAsset) :: t.
Proof.
  exact (formPackage_then_CreateMirror world config remoteOnly zipAsset md5Asset package None
           formPackage_sample).
Defined.

Lemma CreateMirror_errors_witness :
  snd (fst (storage.CreateMirror noRename config package))
  = Some (Wrap (Wrap (External "rename: permission denied") "unable to move file")
               "unable to move the file to storage")
  /\ mirrorFailure noRename config package (snd (storage.CreateMirror noRename config package))
       (Wrap (Wrap (External "rename: permission denied") "unable to move file")
             "unable to move the file to storage").
Proof.
  assert (snd (fst (storage.CreateMirror noRename config package))
          = Some (Wrap (Wrap (External "rename: permission denied") "unable to move file")
                       "unable to move the file to storage")) as Herr
    by (rewrite CreateMirror_noRename; reflexivity).
  split; [exact Herr|].
  exact (CreateMirror_errors noRename config package _ Herr).
Defined.

Lemma CreateMirror_move_fails_witness :
  fst (fst (storage.CreateMirror noRename config package)) = package
  /\ times isSetLocalURL (snd (storage.CreateMirror noRename config package)) = 0%nat
  /\ times isDo (snd (storage.CreateMirror noRename config package)) = 0%nat
  /\ times isRemove (snd (storage.CreateMirror noRename config package)) = 0%nat.
Proof.
  apply (CreateMirror_move_fails noRename config package
           (External "rename: permission denied") "unable to move file").
  rewrite CreateMirror_noRename. reflexivity.
Defined.

Lemma CreateMirror_cleanup_witness :
  storage.mirrored remoteOnly package = false
  /\ GetString remoteOnly "gapps.local_path" = ""
  /\ last (snd (storage.CreateMirror world remoteOnly package))
     = Some (EvRemove "/tmp/gapps-zip").
Proof.
  assert (storage.mirrored remoteOnly package = false) as Hg by (vm_compute; reflexivity).
  assert (GetString remoteOnly "gapps.local_path" = "") as Hpath
    by (vm_compute; reflexivity).
  split; [exact Hg|]. split; [exact Hpath|].
  exact (proj1 (proj1 (CreateMirror_cleanup world remoteOnly package "/tmp/gapps-zip"
                         Hg eq_refl) Hpath)).
Defined.

Lemma CreateMirror_upload_source_witness :
  exists filePath,
    dq_AddMultiple world (storage.OriginURL package) (storage.MD5 package) 20
      (storage.Size package) = Ok filePath
    /\ os_Open world
         (filepath_Clean world
            (if nonEmpty (GetString remoteOnly "gapps.local_path")
             then ((((GetString remoteOnly "gapps.local_path"
                        +:+ toString (storage.Platform_ package)) +:+ "/")
                      +:+ storage.Date package) +:+ "/") +:+ storage.Name package
             else filePath))
       = Ok (FileOf "/tmp/gapps-zip").
Proof.
  apply (CreateMirror_upload_source world remoteOnly package
           (mkRequest "PUT" "https://mirror.example/open_gapps-arm64-11.0-pico-20230101.zip"
              (<["Max-Days" := ["7"]]> (<["Content-Type" := ["application/zip"]]> ∅))
              (FileOf "/tmp/gapps-zip"))).
  rewrite CreateMirror_remoteOnly. cbn [snd In]. tauto.
Defined.

Lemma CreateMirror_retry_after_upload_failure_witness :
  storage.RemoteURL
    (storage.withLocalURL
       "https://local.example/arm64/20230101/open_gapps-arm64-11.0-pico-20230101.zip"
       package) = storage.RemoteURL package
  /\ storage.CreateMirror noMirror config
       (storage.withLocalURL
          "https://local.example/arm64/20230101/open_gapps-arm64-11.0-pico-20230101.zip"
          package)
     = (storage.withLocalURL
          "https://local.example/arm64/20230101/open_gapps-arm64-11.0-pico-20230101.zip"
          package, None, []).
Proof.
  refine (proj2 (CreateMirror_retry_after_upload_failure noMirror config package _ _ _
                   "https://local.example/arm64/20230101/open_gapps-arm64-11.0-pico-20230101.zip"
                   CreateMirror_noMirror _ _)).
  - cbn [In]. tauto.
  - discriminate.
Defined.

Lemma CreateMirror_idempotent_witness :
  GetString remoteOnly "gapps.remote_url" <> ""
  /\ storage.CreateMirror world remoteOnly
       (storage.withRemoteURL "https://mirror.example/abc/file.zip" package)
     = (storage.withRemoteURL "https://mirror.example/abc/file.zip" package, None, []).
Proof.
  assert (GetString remoteOnly "gapps.remote_url" <> "") as Hremote
    by (vm_compute; discriminate).
  split; [exact Hremote|].
  eapply (CreateMirror_idempotent world remoteOnly package _ _ Hremote);
    [|exact CreateMirror_remoteOnly].
  intros req resp [= <-] _. discriminate.
Defined.

Lemma CreateMirror_nothing_to_do_witness :
  storage.mirrored ∅ package = false
  /\ storage.CreateMirror world ∅ package
     = (package, None,
        [EvAddMultiple (storage.OriginURL package) (storage.MD5 package) 20
           (storage.Size package);
         EvRemove "/tmp/gapps-zip"]).
Proof.
  split; [reflexivity|].
  exact (CreateMirror_nothing_to_do world ∅ package eq_refl eq_refl eq_refl
           "/tmp/gapps-zip" eq_refl).
Defined.

Lemma move_failure_witness :
  storage.move noRename "/tmp/gapps-zip" "/data/" (mkSt package [] [])
  = (mkSt package
       [EvMkdirAll "/data/arm64/20230101" 493;
        EvRename "/tmp/gapps-zip"
          "/data/arm64/20230101/open_gapps-arm64-11.0-pico-20230101.zip"]
       [],
     Err (Wrap (External "rename: permission denied") "unable to move file")).
Proof.
  exact (proj1 (proj2 (move_failure noRename "/tmp/gapps-zip" "/data/"
                         (mkSt package [] [])))
           (External "rename: permission denied") eq_refl eq_refl).
Defined.

Lemma gapps_CreateMirror_cleanup_witness :
  gapps.MirrorURL oldPackage = ""
  /\ last (snd (gapps.CreateMirror world oldPackage)) = Some (EvRemove "/tmp/gapps-tmp").
Proof.
  split; [reflexivity|].
  exact (proj1 (gapps_CreateMirror_cleanup world oldPackage
                  "0123456789abcdef  open_gapps.zip" "/tmp/gapps-tmp"
                  eq_refl eq_refl eq_refl)).
Defined.

Lemma gapps_CreateMirror_idempotent_witness :
  gapps.CreateMirror world (gapps.withMirrorURL "https://mirror.example/abc/file.zip" oldPackage)
  = (gapps.withMirrorURL "https://mirror.example/abc/file.zip" oldPackage, None, []).
Proof.
  eapply (gapps_CreateMirror_idempotent world oldPackage _ _);
    [|exact gapps_CreateMirror_sample].
  intros req resp [= <-] _. discriminate.
Defined.

Lemma gapps_CreateMirror_upload_witness :
  snd (fst (gapps.CreateMirror world oldPackage)) = None
  /\ gapps.MirrorURL (fst (fst (gapps.CreateMirror world oldPackage)))
     = "https://mirror.example/abc/file.zip".
Proof.
  assert (In (EvDo (mkRequest "PUT"
                      "https://transfer.sh/open_gapps-arm64-11.0-pico-20230101.zip"
                      (<["Max-Days" := ["7"]]> (<["Content-Type" := ["application/zip"]]> ∅))
                      (FileOf "/tmp/gapps-tmp")))
            (snd (gapps.CreateMirror world oldPackage))) as Hin
    by (rewrite gapps_CreateMirror_sample; cbn [snd In]; tauto).
  pose proof (gapps_CreateMirror_upload world oldPackage _ Hin) as (_ & _ & _ & Hresp).
  pose proof (Hresp (mkResponse 200 "200 OK" (Ok "https://mirror.example/abc/file.zip"))
                eq_refl) as [Hok _].
  exact (Hok eq_refl "https://mirror.example/abc/file.zip" eq_refl).
Defined.

Lemma gapps_formPackage_then_CreateMirror_witness :
  exists t,
    snd (gapps.CreateMirror world oldPackage)
    = EvDownload (GetBrowserDownloadURL zipAsset) 20 (GetSize zipAsset) :: t.
Proof.
  assert (gapps.formPackage world zipAsset md5Asset = (Some oldPackage, None)) as Hform
    by (vm_compute; reflexivity).
  exact (proj2 (gapps_formPackage_then_CreateMirror world zipAsset md5Asset oldPackage None
                  Hform)).
Defined.

End MoreRuns.
